(** * EduMimic: the session-scoring pipeline

    A shallow embedding of
      - [src/utils/scoringSystem.ts]   (class [ComprehensiveScoring]),
      - [src/utils/voiceAnalysis.ts]   ([analyzeVoiceQuality]),
      - [src/components/FaceAnalysis.tsx] ([calculateEngagementScore]),
    and the properties of the specification that concern them.

    Conventions of the embedding.
      - A JavaScript [number] is a rational ([Q]): arithmetic is exact, there
        is no NaN and no infinity.  Numbers are compared with [==].  Where a
        statement would not carry over to doubles on every input (values
        that overflow, a pace within rounding of a band limit), it says on
        which inputs it is meant: emotion values and clarities in [[0,1]],
        durations in whole seconds.
      - A JavaScript string is a [string] whose characters are read as code
        units below 256 (ASCII and Latin-1).
      - An object used as a dictionary ([{ [key: string]: number }]) is a
        [gmap string Q].
      - Code that can throw lives in the [result] monad; [await] is
        sequencing. *)

From Stdlib Require Import QArith Qabs Qminmax Qround Lqa Ascii String List Bool Lia.
From stdpp Require Import base gmap strings.
Import ListNotations.

(** ** The JavaScript primitives the sources call *)

Module JS.

Local Open Scope Q_scope.

(** [a < b] on numbers, as a boolean. *)
Definition ltb (a b : Q) : bool := negb (Qle_bool b a).
(** [a >= b] and [a <= b]. *)
Definition geb (a b : Q) : bool := Qle_bool b a.
Definition leb (a b : Q) : bool := Qle_bool a b.
(** [a > b]. *)
Definition gtb (a b : Q) : bool := negb (Qle_bool a b).
(** [a === b]. *)
Definition eqb (a b : Q) : bool := Qeq_bool a b.

Definition Math_max (a b : Q) : Q := if Qle_bool a b then b else a.
Definition Math_min (a b : Q) : Q := if Qle_bool a b then a else b.
Definition Math_abs (a : Q) : Q := Qabs a.

(** The number of a length or of a counter. *)
Definition of_nat (n : nat) : Q := inject_Z (Z.of_nat n).

(** [x || d] on a possibly missing number: [undefined] and [0] are falsy. *)
Definition num_or (x : option Q) (d : Q) : Q :=
  match x with
  | Some v => if Qeq_bool v 0 then d else v
  | None => d
  end.

(** [object.key || 0] on an object used as a dictionary of numbers. *)
Definition prop (object : gmap string Q) (key : string) : Q :=
  num_or (object !! key) 0.

(** [x || d] on a possibly missing string: [undefined] and the empty string are falsy. *)
Definition str_or (x : option string) (d : string) : string :=
  match x with
  | Some EmptyString | None => d
  | Some v => v
  end.

(** Truthiness of a string, and of an optional string argument. *)
Definition truthy (s : string) : bool :=
  match s with EmptyString => false | String _ _ => true end.

Definition truthy_opt (s : option string) : bool :=
  match s with Some v => truthy v | None => false end.

(** [array.push(x)], on the value of the array. *)
Definition push {A : Type} (array : list A) (x : A) : list A :=
  List.app array [x].

(** *** Exceptions *)

Inductive result (A : Type) : Type :=
| Ok (a : A)
| Throw (message : string).
Arguments Ok {A} a.
Arguments Throw {A} message.

Definition bind {A B : Type} (m : result A) (k : A -> result B) : result B :=
  match m with
  | Ok a => k a
  | Throw e => Throw e
  end.

(** [try { body } catch (error) { handler }]. *)
Definition try_catch {A : Type} (body : result A) (handler : string -> result A)
  : result A :=
  match body with
  | Ok a => Ok a
  | Throw e => handler e
  end.

(** *** Characters *)

Definition between (lo hi n : nat) : bool := ((lo <=? n) && (n <=? hi))%nat.

(** The class [\s] (and the characters [trim] removes) below 256:
    TAB, LF, VT, FF, CR, space and the no-break space. *)
Definition isWhiteSpace (c : ascii) : bool :=
  let n := nat_of_ascii c in
  between 9 13 n || (n =? 32)%nat || (n =? 160)%nat.

Definition isUpper (n : nat) : bool :=
  between 65 90 n || (between 192 222 n && negb (n =? 215)%nat).

Definition isLower (n : nat) : bool :=
  between 97 122 n || (between 224 254 n && negb (n =? 247)%nat).

Definition toLowerChar (c : ascii) : ascii :=
  let n := nat_of_ascii c in
  if isUpper n then ascii_of_nat (n + 32) else c.

(** The canonical form of a character under the [i] flag (upper case).
    The two lower-case Latin-1 letters whose upper case lies above 255
    stay as they are: no other character below 256 shares it. *)
Definition canonicalize (c : ascii) : ascii :=
  let n := nat_of_ascii c in
  if isLower n then ascii_of_nat (n - 32) else c.

(** *** Strings *)

Fixpoint toLowerCase (s : string) : string :=
  match s with
  | EmptyString => EmptyString
  | String c r => String (toLowerChar c) (toLowerCase r)
  end.

Definition reverse (s : string) : string :=
  string_of_list_ascii (List.rev (list_ascii_of_string s)).

Fixpoint trimStart (s : string) : string :=
  match s with
  | EmptyString => EmptyString
  | String c r => if isWhiteSpace c then trimStart r else s
  end.

Definition trimEnd (s : string) : string := reverse (trimStart (reverse s)).

Definition trim (s : string) : string := trimEnd (trimStart s).

Fixpoint startsWith (s p : string) : bool :=
  match p, s with
  | EmptyString, _ => true
  | String _ _, EmptyString => false
  | String a p', String b s' => Ascii.eqb a b && startsWith s' p'
  end.

(** [s.includes(k)]. *)
Fixpoint includes (s k : string) : bool :=
  startsWith s k ||
  match s with
  | EmptyString => false
  | String _ r => includes r k
  end.

(** [s.split(/C+/)] for a character class [C]: the pieces between the
    maximal runs of characters of the class.  A run at the start or at the
    end of [s] leaves an empty piece there, and the empty string gives one
    empty piece.  [cur] is the piece being read, [inRun] tells that the
    previous character was of the class. *)
Fixpoint splitRuns (sep : ascii -> bool) (s cur : string) (inRun : bool)
  : list string :=
  match s with
  | EmptyString => [cur]
  | String c r =>
      if sep c
      then if inRun then splitRuns sep r cur true
           else cur :: splitRuns sep r EmptyString true
      else splitRuns sep r (String.append cur (String c EmptyString)) false
  end.

Definition split (sep : ascii -> bool) (s : string) : list string :=
  splitRuns sep s EmptyString false.

(** *** Regular expressions

    The patterns of the sources are alternations of literal words, with
    the flag [g] and sometimes [i]. *)

Record RegExp := {
  alternatives : list string;
  ignoreCase : bool
}.

Definition charMatches (ci : bool) (p c : ascii) : bool :=
  if ci then Ascii.eqb (canonicalize p) (canonicalize c) else Ascii.eqb p c.

(** Does the literal [p] match at the start of [s]? *)
Fixpoint literalAt (ci : bool) (p s : string) : bool :=
  match p, s with
  | EmptyString, _ => true
  | String _ _, EmptyString => false
  | String a p', String b s' => charMatches ci a b && literalAt ci p' s'
  end.

(** A match at the start of [s]: the length of the first alternative, in
    the order of the pattern, that matches there. *)
Fixpoint execAt (ci : bool) (alts : list string) (s : string) : option nat :=
  match alts with
  | [] => None
  | p :: ps =>
      if literalAt ci p s then Some (String.length p) else execAt ci ps s
  end.

(** All matches of a [g] pattern, from left to right and without overlap;
    [skip] counts the characters of the last match still to pass. *)
Fixpoint matchesFrom (re : RegExp) (s : string) (skip : nat) : list string :=
  match s with
  | EmptyString =>
      match skip, execAt (ignoreCase re) (alternatives re) EmptyString with
      | O, Some _ => [EmptyString]
      | _, _ => []
      end
  | String _ r =>
      match skip with
      | S k => matchesFrom re r k
      | O =>
          match execAt (ignoreCase re) (alternatives re) s with
          | Some n => substring 0 n s :: matchesFrom re r (Nat.pred n)
          | None => matchesFrom re r 0
          end
      end
  end.

(** [s.match(re)] for a [g] pattern: the matches, or [null] without one. *)
Definition String_match (s : string) (re : RegExp) : option (list string) :=
  match matchesFrom re s 0 with
  | [] => None
  | ms => Some ms
  end.

(** *** More of the library: rounding, [join] and [split] on a character *)

Definition Math_floor (x : Q) : Q := inject_Z (Qfloor x).

(** [Math.round]: the nearest integer, a half going up. *)
Definition Math_round (x : Q) : Q := inject_Z (Qfloor (x + 0.5)).

(** [array.join(sep)]. *)
Fixpoint join (sep : string) (array : list string) : string :=
  match array with
  | [] => EmptyString
  | [x] => x
  | x :: rest => String.append x (String.append sep (join sep rest))
  end.

(** [s.split(c)] for a separator of one character: a piece ends at every
    occurrence of the separator. *)
Fixpoint splitAt (sep : ascii) (s cur : string) : list string :=
  match s with
  | EmptyString => [cur]
  | String c r =>
      if Ascii.eqb c sep then cur :: splitAt sep r EmptyString
      else splitAt sep r (String.append cur (String c EmptyString))
  end.

Definition splitOn (sep : ascii) (s : string) : list string :=
  splitAt sep s EmptyString.

(** An object as its entries in insertion order, which is the order of
    [Object.entries]; the keys of an object are distinct. *)
Definition entries := list (string * Q).

(** [object[key]], on the entries: [None] is [undefined]. *)
Fixpoint getEntry (object : entries) (key : string) : option Q :=
  match object with
  | [] => None
  | (k, v) :: rest => if String.eqb k key then Some v else getEntry rest key
  end.

(** [x > y] on possibly undefined numbers: false when one is undefined. *)
Definition gtb_opt (x y : option Q) : bool :=
  match x, y with
  | Some a, Some b => gtb a b
  | _, _ => false
  end.

End JS.


(** ** [src/utils/voiceAnalysis.ts] *)

Module VoiceAnalysis.

Import JS.
Local Open Scope Q_scope.
Local Open Scope string_scope.

Record VoiceQuality := {
  clarity : Q;
  score : string;
  volume : Q;
  confidence : Q
}.

(** The state of the loop over the samples of a channel. *)
Record Scan := {
  sumSquares : Q;
  maxAmplitude : Q;
  silenceFrames : nat
}.

Definition scanSample (st : Scan) (x : Q) : Scan :=
  let amplitude := Math_abs x in
  {| sumSquares := sumSquares st + x * x;
     maxAmplitude := Math_max (maxAmplitude st) amplitude;
     silenceFrames :=
       if ltb amplitude 0.001 then S (silenceFrames st) else silenceFrames st |}.

Definition scoreLabel (clarityScore : Q) : string :=
  if gtb clarityScore 0.8 then "Excellent"
  else if gtb clarityScore 0.6 then "Good"
  else if gtb clarityScore 0.4 then "Fair"
  else if gtb clarityScore 0.2 then "Poor"
  else "Very Poor".

Definition errorSample : VoiceQuality :=
  {| clarity := 0; score := "Error"; volume := 0; confidence := 0 |}.

Section Browser.

(** The browser: blobs, the audio context and its decoder, and
    [Math.sqrt], which has no exact value on rationals. *)
Variables Blob ArrayBuffer AudioContext AudioBuffer : Type.
Variable arrayBuffer : Blob -> result ArrayBuffer.
Variable newAudioContext : result AudioContext.
Variable decodeAudioData : AudioContext -> ArrayBuffer -> result AudioBuffer.
Variable getChannelData : AudioBuffer -> nat -> result (list Q).
Variable Math_sqrt : Q -> Q.

(** The first four statements of the [try] block. *)
Definition decodeChannel (blob : Blob) : result (list Q) :=
  bind (arrayBuffer blob) (fun buf =>
  bind newAudioContext (fun audioCtx =>
  bind (decodeAudioData audioCtx buf) (fun audioBuffer =>
  getChannelData audioBuffer 0))).

(** The rest of the [try] block, on the decoded samples. *)
Definition measure (channelData : list Q) : VoiceQuality :=
  let st := fold_left scanSample channelData
              {| sumSquares := 0; maxAmplitude := 0; silenceFrames := 0 |} in
  let n := of_nat (List.length channelData) in
  let rms := Math_sqrt (sumSquares st / n) in
  let silenceRatio := of_nat (silenceFrames st) / n in
  let volumeScore := Math_min 1 (rms * 20) in
  let dynamicRange := maxAmplitude st - rms in
  let snrScore := Math_min 1 (dynamicRange * 10) in
  let consistencyScore := Math_max 0 (1 - silenceRatio * 2) in
  let clarityScore :=
    volumeScore * 0.4 + snrScore * 0.3 + consistencyScore * 0.3 in
  let confidence := clarityScore in
  {| clarity := clarityScore;
     score := scoreLabel clarityScore;
     volume := volumeScore;
     confidence := confidence |}.

Definition analyzeVoiceQuality (blob : Blob) : result VoiceQuality :=
  try_catch
    (bind (decodeChannel blob) (fun channelData => Ok (measure channelData)))
    (fun _ => Ok errorSample).

End Browser.

Arguments decodeChannel {Blob ArrayBuffer AudioContext AudioBuffer}.
Arguments analyzeVoiceQuality {Blob ArrayBuffer AudioContext AudioBuffer}.

Definition getVoiceQualityColor (score : string) : string :=
  if String.eqb score "Excellent" then "text-green-500"
  else if String.eqb score "Good" then "text-blue-500"
  else if String.eqb score "Fair" then "text-yellow-500"
  else if String.eqb score "Poor" then "text-orange-500"
  else if String.eqb score "Very Poor" then "text-red-500"
  else "text-gray-500".

End VoiceAnalysis.

(** ** [src/components/FaceAnalysis.tsx] *)

Module FaceAnalysis.

Import JS.
Local Open Scope Q_scope.
Local Open Scope string_scope.

Definition calculateEngagementScore (emotions : gmap string Q) : Q :=
  let positive := prop emotions "happy" in
  let neutral := prop emotions "neutral" in
  let surprised := prop emotions "surprised" in
  let sad := prop emotions "sad" in
  let angry := prop emotions "angry" in
  let disgusted := prop emotions "disgusted" in
  let fearful := prop emotions "fearful" in
  Math_max 0 (Math_min 1
    ((positive * 0.8 + neutral * 0.6 + surprised * 0.4) -
     (sad * 0.3 + angry * 0.4 + disgusted * 0.5 + fearful * 0.3))).

(** [Object.entries(currentEmotions).reduce((a, b) =>
      currentEmotions[a[0]] > currentEmotions[b[0]] ? a : b)[0]],
    behind the test for an object without keys. *)
Definition dominantStep (currentEmotions : entries) (a b : string * Q)
  : string * Q :=
  if gtb_opt (getEntry currentEmotions a.1) (getEntry currentEmotions b.1)
  then a else b.

Definition getDominantEmotion (currentEmotions : entries) : string :=
  match currentEmotions with
  | [] => "neutral"
  | first :: rest => (fold_left (dominantStep currentEmotions) rest first).1
  end.

End FaceAnalysis.

(** ** [src/utils/scoringSystem.ts] *)

Module ScoringSystem.

Import JS.
Local Open Scope Q_scope.
Local Open Scope string_scope.

Record EvaluationMetrics := {
  faceEngagement : Q;
  voiceClarity : Q;
  contentQuality : Q;
  interactionScore : Q;
  overallScore : Q;
  feedback : string;
  suggestions : list string
}.

(** [voiceQualities] is an [any[]]: an entry may be [null] or [undefined]
    (here [None]). *)
Record SessionData := {
  transcript : string;
  emotions : list (gmap string Q);
  voiceQualities : list (option VoiceAnalysis.VoiceQuality);
  topic : string;
  duration : Q
}.

(** The handle of the generative-text client, made from an API key. *)
Record GoogleGenerativeAI := { apiKey : string }.

(** The one field of the class. *)
Record ComprehensiveScoring := { genAI : option GoogleGenerativeAI }.

Definition constructor (key : option string) : ComprehensiveScoring :=
  match key with
  | Some k => if truthy k then {| genAI := Some {| apiKey := k |} |}
              else {| genAI := None |}
  | None => {| genAI := None |}
  end.

(** The score, feedback and suggestions of a content analysis. *)
Record ContentAnalysis := {
  score : Q;
  analysisFeedback : string;
  analysisSuggestions : list string
}.

(** *** calculateFaceEngagement *)

Definition Object_keys (emotion : gmap string Q) : list string :=
  (map_to_list emotion).*1.

(** The body of the [if] in the loop: the engagement of one frame. *)
Definition frameEngagement (emotion : gmap string Q) : Q :=
  let positive := prop emotion "happy" + prop emotion "surprised" * 0.5 in
  let neutral := prop emotion "neutral" in
  let negative := prop emotion "sad" + prop emotion "angry"
                  + prop emotion "disgusted" + prop emotion "fearful" in
  Math_max 0 (Math_min 1 (positive * 0.8 + neutral * 0.4 - negative * 0.3)).

(** One turn of [emotions.forEach] on [(totalEngagement, validFrames)]. *)
Definition engagementStep (acc : Q * nat) (emotion : gmap string Q) : Q * nat :=
  let '(totalEngagement, validFrames) := acc in
  if (0 <? List.length (Object_keys emotion))%nat
  then (totalEngagement + frameEngagement emotion, S validFrames)
  else (totalEngagement, validFrames).

Definition calculateFaceEngagement (emotions : list (gmap string Q)) : Q :=
  if (List.length emotions =? 0)%nat then 0.5
  else
    let '(totalEngagement, validFrames) :=
      fold_left engagementStep emotions (0, 0%nat) in
    if (0 <? validFrames)%nat
    then totalEngagement / of_nat validFrames
    else 0.5.

(** *** calculateVoiceClarity *)

(** [quality?.clarity || 0]. *)
Definition clarityOf (quality : option VoiceAnalysis.VoiceQuality) : Q :=
  num_or (VoiceAnalysis.clarity <$> quality) 0.

Definition calculateVoiceClarity
  (voiceQualities : list (option VoiceAnalysis.VoiceQuality)) : Q :=
  if (List.length voiceQualities =? 0)%nat then 0.5
  else
    let avgClarity :=
      fold_left (fun sum quality => sum + clarityOf quality) voiceQualities 0
      / of_nat (List.length voiceQualities) in
    Math_max 0 (Math_min 1 avgClarity).

(** *** calculateInteractionScore *)

Definition wordCount (transcript : string) : nat :=
  List.length (split isWhiteSpace transcript).

Definition wpmScore (wordsPerMinute : Q) : Q :=
  if geb wordsPerMinute 120 && leb wordsPerMinute 180 then 1
  else if geb wordsPerMinute 100 && leb wordsPerMinute 200 then 0.8
  else if geb wordsPerMinute 80 && leb wordsPerMinute 220 then 0.6
  else 0.4.

Definition interactionPatterns : list RegExp := [
  {| alternatives := ["?"]; ignoreCase := false |};
  {| alternatives := ["because"; "therefore"; "thus"; "so"; "hence"];
     ignoreCase := true |};
  {| alternatives := ["first"; "second"; "third"; "next"; "then"; "finally"];
     ignoreCase := true |};
  {| alternatives := ["for example"; "such as"; "like"; "including"];
     ignoreCase := true |}
].

(** [matches ? matches.length : 0]. *)
Definition matchCount (transcript : string) (pattern : RegExp) : nat :=
  match String_match transcript pattern with
  | Some matches => List.length matches
  | None => 0%nat
  end.

Definition interactionComplexity (transcript : string) : nat :=
  fold_left (fun acc pattern => (acc + matchCount transcript pattern)%nat)
    interactionPatterns 0%nat.

Definition calculateInteractionScore (sessionData : SessionData) : Q :=
  let transcript := transcript sessionData in
  let duration := duration sessionData in
  if negb (truthy transcript) || eqb duration 0 then 0
  else
    let wordsPerMinute := (of_nat (wordCount transcript) / duration) * 60 in
    let complexityScore :=
      Math_min 1 (of_nat (interactionComplexity transcript) / 10) in
    wpmScore wordsPerMinute * 0.6 + complexityScore * 0.4.

(** *** analyzeContentLocally *)

Definition noSpeech : ContentAnalysis :=
  {| score := 0.2;
     analysisFeedback := "No speech detected during the session.";
     analysisSuggestions :=
       ["Ensure microphone is working"; "Speak clearly and loudly"] |}.

(** The class [[.!?]]. *)
Definition isSentenceEnd (c : ascii) : bool :=
  (Ascii.eqb c "." || Ascii.eqb c "!" || Ascii.eqb c "?")%char.

Definition sentences (transcript : string) : list string :=
  List.filter (fun s => (0 <? String.length (trim s))%nat)
    (split isSentenceEnd transcript).

Definition topicKeywords (topic : string) : list string :=
  split isWhiteSpace (toLowerCase topic).

Definition keywordMatches (transcript topic : string) : nat :=
  let transcriptLower := toLowerCase transcript in
  List.length
    (List.filter (fun keyword => includes transcriptLower keyword)
       (topicKeywords topic)).

Definition relevanceScore (transcript topic : string) : Q :=
  of_nat (keywordMatches transcript topic)
  / of_nat (List.length (topicKeywords topic)).

(** The structure analysis: what it adds to the score. *)
Definition structureBonus (transcript : string) : Q :=
  if (3 <? List.length (sentences transcript))%nat then 0.1 else 0.

Definition educationalPatterns : list RegExp := [
  {| alternatives := ["explain"; "definition"; "means"; "refers to"];
     ignoreCase := true |};
  {| alternatives := ["example"; "instance"; "such as"]; ignoreCase := true |};
  {| alternatives := ["because"; "reason"; "cause"]; ignoreCase := true |};
  {| alternatives := ["important"; "key"; "main"; "primary"];
     ignoreCase := true |}
].

Definition educationalScore (transcript : string) : Q :=
  fold_left
    (fun acc pattern =>
       match String_match transcript pattern with
       | Some _ => acc + 0.05
       | None => acc
       end)
    educationalPatterns 0.

Definition feedbackFor (contentScore : Q) : string :=
  if geb contentScore 0.8
  then "Excellent presentation with clear explanations and good topic coverage."
  else if geb contentScore 0.6
  then "Good presentation with room for improvement in detail and clarity."
  else if geb contentScore 0.4
  then "Adequate presentation but needs more comprehensive coverage."
  else "Presentation needs significant improvement in content and delivery.".

Definition examplePattern : RegExp :=
  {| alternatives := ["example"; "instance"]; ignoreCase := true |}.

Definition analyzeContentLocally (sessionData : SessionData) : ContentAnalysis :=
  let transcript := transcript sessionData in
  let topic := topic sessionData in
  if negb (truthy transcript) then noSpeech
  else
    let wordCount := wordCount transcript in
    let contentScore := 0.5 in
    let suggestions := [] in
    let '(contentScore, suggestions) :=
      if (wordCount <? 50)%nat
      then (contentScore - 0.2,
            push suggestions "Provide more detailed explanations")
      else if (500 <? wordCount)%nat
      then (contentScore + 0.1, suggestions)
      else (contentScore, suggestions) in
    let relevanceScore := relevanceScore transcript topic in
    let contentScore := contentScore + relevanceScore * 0.3 in
    let contentScore := contentScore + structureBonus transcript in
    let contentScore :=
      Math_max 0 (Math_min 1 (contentScore + educationalScore transcript)) in
    let feedback := feedbackFor contentScore in
    let suggestions :=
      if ltb relevanceScore 0.5
      then push suggestions "Stay more focused on the main topic"
      else suggestions in
    let suggestions :=
      if (wordCount <? 100)%nat
      then push suggestions "Provide more detailed explanations"
      else suggestions in
    let suggestions :=
      match String_match transcript examplePattern with
      | None => push suggestions "Include examples to illustrate your points"
      | Some _ => suggestions
      end in
    {| score := contentScore;
       analysisFeedback := feedback;
       analysisSuggestions := suggestions |}.

(** *** calculateOverallScore and getDefaultMetrics *)

Definition calculateOverallScore
  (faceEngagement voiceClarity contentQuality interactionScore : Q) : Q :=
  faceEngagement * 0.2 + voiceClarity * 0.25 + contentQuality * 0.35
  + interactionScore * 0.2.

Definition getDefaultMetrics : EvaluationMetrics :=
  {| faceEngagement := 0.5;
     voiceClarity := 0.5;
     contentQuality := 0.5;
     interactionScore := 0.5;
     overallScore := 0.5;
     feedback := "Unable to complete full evaluation due to technical issues.";
     suggestions :=
       ["Ensure camera and microphone permissions are granted";
        "Try again with better lighting"] |}.

(** *** analyzeContentWithGemini and evaluateSession *)

(** What the code reads of the parsed reply: a field is [None] when the
    object lacks it (for [suggestions]: when it is not an array).  The score
    of a reply, when it is there, is a JSON number: a reply whose score is
    of another type, for which [Math.min] gives NaN, has no value in this
    record and is outside the model. *)
Record Reply := {
  replyScore : option Q;
  replyFeedback : option string;
  replySuggestions : option (list string)
}.

Section Remote.

(** The generative-text service: the prompt is built from the session, the
    call either gives back the text of the response or throws (transport
    failure).  [JSON_parse] stands for [JSON.parse] and the reads of the three
    fields; it throws on text that is not the JSON of an object.  The
    replies it gives have a score that is a JSON number or no score. *)
Variable generateContent : GoogleGenerativeAI -> SessionData -> result string.
Variable JSON_parse : string -> result Reply.

Definition analyzeContentWithGemini
  (this : ComprehensiveScoring) (sessionData : SessionData)
  : result ContentAnalysis :=
  match genAI this with
  | None => Throw "Gemini not initialized"
  | Some client =>
      bind (generateContent client sessionData) (fun text =>
      try_catch
        (bind (JSON_parse text) (fun analysis =>
         Ok {| score := Math_max 0 (Math_min 1 (num_or (replyScore analysis) 0.5));
               analysisFeedback :=
                 str_or (replyFeedback analysis) "Content analysis completed.";
               analysisSuggestions :=
                 match replySuggestions analysis with
                 | Some l => l
                 | None => []
                 end |}))
        (fun _ => Throw "Invalid response format"))
  end.

(** [if (apiKey && !this.genAI) this.genAI = new GoogleGenerativeAI(apiKey)]. *)
Definition initialize (this : ComprehensiveScoring) (key : option string)
  : ComprehensiveScoring :=
  match key, genAI this with
  | Some k, None => if truthy k then {| genAI := Some {| apiKey := k |} |} else this
  | _, _ => this
  end.

(** The content analysis chosen by the inner [if] and [try]. *)
Definition contentAnalysis
  (this : ComprehensiveScoring) (sessionData : SessionData)
  : result ContentAnalysis :=
  match genAI this with
  | Some _ =>
      if truthy (transcript sessionData)
      then try_catch (analyzeContentWithGemini this sessionData)
             (fun _ => Ok (analyzeContentLocally sessionData))
      else Ok (analyzeContentLocally sessionData)
  | None => Ok (analyzeContentLocally sessionData)
  end.

(** The body of the outer [try], on the scorer after [initialize]. *)
Definition evaluate (this : ComprehensiveScoring) (sessionData : SessionData)
  : result EvaluationMetrics :=
  let faceEngagement := calculateFaceEngagement (emotions sessionData) in
  let voiceClarity := calculateVoiceClarity (voiceQualities sessionData) in
  let interactionScore := calculateInteractionScore sessionData in
  bind (contentAnalysis this sessionData) (fun analysis =>
  let contentQuality := score analysis in
  let overallScore :=
    calculateOverallScore faceEngagement voiceClarity contentQuality
      interactionScore in
  Ok {| faceEngagement := faceEngagement;
        voiceClarity := voiceClarity;
        contentQuality := contentQuality;
        interactionScore := interactionScore;
        overallScore := overallScore;
        feedback := analysisFeedback analysis;
        suggestions := analysisSuggestions analysis |}).

(** The metrics returned, and the scorer as the call leaves it. *)
Definition evaluateSession
  (this : ComprehensiveScoring) (sessionData : SessionData) (key : option string)
  : EvaluationMetrics * ComprehensiveScoring :=
  let this := initialize this key in
  match evaluate this sessionData with
  | Ok metrics => (metrics, this)
  | Throw _ => (getDefaultMetrics, this)
  end.

End Remote.

End ScoringSystem.


(** ** The evaluation panel (second part of [src/components/FaceAnalysis.tsx]) *)

Module EvaluationPanel.

Import JS.
Local Open Scope Q_scope.
Local Open Scope string_scope.

Definition getScoreColor (score : Q) : string :=
  if geb score 0.8 then "text-green-500"
  else if geb score 0.6 then "text-blue-500"
  else if geb score 0.4 then "text-yellow-500"
  else "text-red-500".

Definition getScoreLabel (score : Q) : string :=
  if geb score 0.9 then "Excellent"
  else if geb score 0.8 then "Very Good"
  else if geb score 0.7 then "Good"
  else if geb score 0.6 then "Fair"
  else if geb score 0.4 then "Needs Improvement"
  else "Poor".

(** [currentEmotions] is an optional property: [None] is [undefined]. *)
Definition getDominantEmotion (currentEmotions : option entries) : string :=
  match currentEmotions with
  | None => "neutral"
  | Some object => FaceAnalysis.getDominantEmotion object
  end.

Definition calculateCurrentEngagement (currentEmotions : option (gmap string Q))
  : Q :=
  match currentEmotions with
  | None => 0
  | Some currentEmotions =>
      let positive :=
        prop currentEmotions "happy" + prop currentEmotions "surprised" * 0.5 in
      let neutral := prop currentEmotions "neutral" in
      let negative :=
        prop currentEmotions "sad" + prop currentEmotions "angry"
        + prop currentEmotions "disgusted" + prop currentEmotions "fearful" in
      Math_max 0 (Math_min 1 (positive * 0.8 + neutral * 0.4 - negative * 0.3))
  end.

(** The number shown as Words Spoken:
    [sessionData.transcript.split(/\s+/).length]. *)
Definition wordsSpoken (sessionData : ScoringSystem.SessionData) : nat :=
  List.length (split isWhiteSpace (ScoringSystem.transcript sessionData)).

End EvaluationPanel.

(** ** The transcript panel ([src/components/TranscriptPanel.tsx]) *)

Module TranscriptPanel.

Import JS.
Local Open Scope Q_scope.
Local Open Scope string_scope.

(** [transcript.join(' ').split(' ').filter(word => word.trim()).length]. *)
Definition totalWords (transcript : list string) : nat :=
  List.length
    (List.filter (fun word => truthy (trim word))
       (splitOn " "%char (join " " transcript))).

Definition getReadingSpeed (wordCount : nat) (duration : Q) : Q :=
  if eqb duration 0 then 0
  else Math_round ((of_nat wordCount / duration) * 60).

End TranscriptPanel.

(** ** The feedback dialog ([src/components/FeedbackModal.tsx]) *)

Module FeedbackModal.

Import JS.
Local Open Scope Q_scope.
Local Open Scope string_scope.

Inductive MessageType := question | reaction.

Record AIMessage := {
  timestamp : Q;
  message : string;
  type : MessageType
}.

(** [TeachingSession], without its identifier and start time, which the
    dialog does not read for its scores. *)
Record TeachingSession := {
  topic : string;
  transcript : list string;
  emotions : list string;
  aiInteractions : list AIMessage;
  duration : Q
}.

Record Scores := {
  clarity : Q;
  delivery : Q;
  bodyLanguage : Q;
  overall : Q;
  wordsPerMinute : Q
}.

Definition calculateScores (session : TeachingSession) : Scores :=
  let duration := duration session / 1000 / 60 in
  let wordCount :=
    List.length
      (List.filter (fun w => truthy (trim w))
         (splitOn " "%char (join " " (transcript session)))) in
  let wordsPerMinute :=
    if gtb duration 0 then of_nat wordCount / duration else 0 in
  let clarityScore :=
    Math_min 5 (Math_max 1
      (if gtb wordsPerMinute 100 && ltb wordsPerMinute 180 then 5
       else if gtb wordsPerMinute 80 && ltb wordsPerMinute 220 then 4
       else 3)) in
  let interactions := List.length (aiInteractions session) in
  let deliveryScore :=
    Math_min 5 (Math_max 1
      (if (5 <? interactions)%nat then 5
       else if (3 <? interactions)%nat then 4
       else 3)) in
  let emotionVariety := List.length (remove_dups (emotions session)) in
  let bodyLanguageScore :=
    Math_min 5 (Math_max 1
      (if (3 <? emotionVariety)%nat then 5
       else if (2 <? emotionVariety)%nat then 4
       else 3)) in
  let overall :=
    Math_round
      ((clarityScore * 0.4 + deliveryScore * 0.3 + bodyLanguageScore * 0.3) * 10)
    / 10 in
  {| clarity := clarityScore;
     delivery := deliveryScore;
     bodyLanguage := bodyLanguageScore;
     overall := overall;
     wordsPerMinute := Math_round wordsPerMinute |}.

Definition getScoreColor (score : Q) : string :=
  if geb score 4.5 then "text-success"
  else if geb score 3.5 then "text-primary"
  else if geb score 2.5 then "text-warning"
  else "text-destructive".

Definition getScoreDescription (score : Q) : string :=
  if geb score 4.5 then "Excellent"
  else if geb score 3.5 then "Good"
  else if geb score 2.5 then "Fair"
  else "Needs Improvement".

Definition generateTips (session : TeachingSession) : list string :=
  let scores := calculateScores session in
  let tips := [] in
  let tips :=
    if ltb (clarity scores) 4 then
      let tips :=
        if gtb (wordsPerMinute scores) 180
        then push tips "Try speaking more slowly for better clarity"
        else if ltb (wordsPerMinute scores) 100
        then push tips "Increase your speaking pace to maintain engagement"
        else tips in
      push tips "Use more pauses and emphasis on key points"
    else tips in
  let tips :=
    if ltb (delivery scores) 4 then
      push (push tips "Encourage more student interaction with questions")
        "Vary your tone and volume for emphasis"
    else tips in
  let tips :=
    if ltb (bodyLanguage scores) 4 then
      let dominantEmotion := last (emotions session) in
      let tips :=
        match dominantEmotion with
        | Some e =>
            if String.eqb e "neutral"
            then push tips "Try smiling more to appear more approachable 😊"
            else tips
        | None => tips
        end in
      push tips "Use more varied facial expressions to show enthusiasm"
    else tips in
  tips.

End FeedbackModal.

(** ** The recording loop of the main component ([EduMimic.tsx]) *)

Module EduMimic.

Import JS.
Local Open Scope Q_scope.
Local Open Scope string_scope.

Section Browser.

Variables Blob ArrayBuffer AudioContext AudioBuffer : Type.
Variable arrayBuffer : Blob -> result ArrayBuffer.
Variable newAudioContext : result AudioContext.
Variable decodeAudioData : AudioContext -> ArrayBuffer -> result AudioBuffer.
Variable getChannelData : AudioBuffer -> nat -> result (list Q).
Variable Math_sqrt : Q -> Q.
Variable size : Blob -> nat.

(** The volume the function logs. *)
Definition rms (channelData : list Q) : Q :=
  let sumSquares := fold_left (fun sum x => sum + x * x) channelData 0 in
  Math_sqrt (sumSquares / of_nat (List.length channelData)).

(** Without samples the mean is 0/0, which is NaN, and [NaN > threshold]
    is false. *)
Definition isLoudEnough (blob : Blob) (threshold : Q) : result bool :=
  try_catch
    (bind (VoiceAnalysis.decodeChannel arrayBuffer newAudioContext
             decodeAudioData getChannelData blob)
       (fun channelData =>
          match channelData with
          | [] => Ok false
          | _ :: _ => Ok (gtb (rms channelData) threshold)
          end))
    (fun _ => Ok false).

(** What [onstop] does with the blob of a chunk: the history of voice
    qualities after it, and whether the chunk is sent to transcription. *)
Definition onstop
  (audioBlob : Blob) (voiceQualityHistory : list VoiceAnalysis.VoiceQuality)
  : result (list VoiceAnalysis.VoiceQuality * bool) :=
  if (0 <? size audioBlob)%nat then
    bind (VoiceAnalysis.analyzeVoiceQuality arrayBuffer newAudioContext
            decodeAudioData getChannelData Math_sqrt audioBlob)
      (fun voiceQuality =>
    let voiceQualityHistory := push voiceQualityHistory voiceQuality in
    bind (isLoudEnough audioBlob 0.01) (fun loud =>
    Ok (voiceQualityHistory,
        loud
        && negb (String.eqb (VoiceAnalysis.score voiceQuality) "Poor")
        && negb (String.eqb (VoiceAnalysis.score voiceQuality) "Very Poor"))))
  else Ok (voiceQualityHistory, false).

End Browser.

Arguments isLoudEnough {Blob ArrayBuffer AudioContext AudioBuffer}.
Arguments onstop {Blob ArrayBuffer AudioContext AudioBuffer}.

(** [getCurrentSessionData], on the state it reads; [now] and [start] are
    the two clock readings in milliseconds. *)
Definition getCurrentSessionData
  (transcript : list string) (emotionHistory : list (gmap string Q))
  (voiceQualityHistory : list VoiceAnalysis.VoiceQuality)
  (currentTopic : string) (now start : Q) : ScoringSystem.SessionData :=
  {| ScoringSystem.transcript := join " " transcript;
     ScoringSystem.emotions := emotionHistory;
     ScoringSystem.voiceQualities := Some <$> voiceQualityHistory;
     ScoringSystem.topic := currentTopic;
     ScoringSystem.duration := Math_floor ((now - start) / 1000) |}.

End EduMimic.


(** ** The specification's reference definitions *)

Module Spec.

Import JS.
Local Open Scope Q_scope.
Local Open Scope string_scope.

(** The seven labels of an emotion frame. *)
Definition emotionLabels : list string :=
  ["neutral"; "happy"; "sad"; "angry"; "fearful"; "disgusted"; "surprised"].

(** Every emotion value the formulas read lies in [[0,1]]. *)
Definition frameInUnit (emotion : gmap string Q) : Prop :=
  Forall (fun key => 0 <= prop emotion key <= 1) emotionLabels.

Definition clamp01 (x : Q) : Q := Qmax 0 (Qmin 1 x).

(** Section 4.2, the formula of the live display. *)
Definition liveEngagement (happy neutral surprised sad angry disgusted fearful : Q)
  : Q :=
  clamp01 (happy * 0.8 + neutral * 0.6 + surprised * 0.4
           - (sad * 0.3 + angry * 0.4 + disgusted * 0.5 + fearful * 0.3)).

(** Section 4.2, the formula of the session average, for one frame. *)
Definition sessionFrameEngagement (emotion : gmap string Q) : Q :=
  let v := prop emotion in
  clamp01 ((v "happy" + v "surprised" * 0.5) * 0.8 + v "neutral" * 0.4
           - (v "sad" + v "angry" + v "disgusted" + v "fearful") * 0.3).

Definition sum (l : list Q) : Q := fold_right Qplus 0 l.

(** The arithmetic mean of a sequence, and [d] for the empty one. *)
Definition meanOr (d : Q) (l : list Q) : Q :=
  match l with
  | [] => d
  | _ :: _ => sum l / of_nat (List.length l)
  end.

(** A frame with at least one non-zero emotion value. *)
Definition hasNonZeroValueb (emotion : gmap string Q) : bool :=
  existsb (fun kv => negb (Qeq_bool kv.2 0)) (map_to_list emotion).

(** Section 4.2 as it is worded: the mean over the frames with a non-zero
    emotion value. *)
Definition faceEngagementAsWorded (emotions : list (gmap string Q)) : Q :=
  meanOr 0.5 (sessionFrameEngagement <$> List.filter hasNonZeroValueb emotions).

(** Section 4.3: membership of an inclusive band, and the pace score, the
    narrowest band first. *)
Definition inBand (lo hi wpm : Q) : Prop := lo <= wpm /\ wpm <= hi.

Definition inBand_dec (lo hi wpm : Q) : {inBand lo hi wpm} + {~ inBand lo hi wpm}.
Proof.
  unfold inBand.
  destruct (Qlt_le_dec wpm lo) as [Hlo | Hlo]; [right; lra |].
  destruct (Qlt_le_dec hi wpm) as [Hhi | Hhi]; [right; lra | left; lra].
Defined.

Definition wpmBand (wpm : Q) : Q :=
  if inBand_dec 120 180 wpm then 1
  else if inBand_dec 100 200 wpm then 0.8
  else if inBand_dec 80 220 wpm then 0.6
  else 0.4.

(** Section 4.3, the word count.  The white space characters are TAB, LF,
    VT, FF, CR, the space and the no-break space; the transcript is cut at
    every run of them, and the word count is the number of pieces: one more
    than the number of runs. *)
Definition whiteSpaces : list ascii :=
  ["009"; "010"; "011"; "012"; "013"; " "; "160"]%char.

Definition isSpace (c : ascii) : bool := existsb (Ascii.eqb c) whiteSpaces.

(** The runs of white space in a text; [afterSpace] tells that the text
    follows a white space character, whose run goes on. *)
Fixpoint whiteRuns (text : string) (afterSpace : bool) : nat :=
  match text with
  | EmptyString => 0
  | String c rest =>
      if isSpace c
      then (if afterSpace then 0 else 1) + whiteRuns rest true
      else whiteRuns rest false
  end%nat.

Definition wordCount (transcript : string) : nat := S (whiteRuns transcript false).

(** Section 4.3, the four pattern classes, each a list of words tried in
    this order, and all read without regard to case. *)
Definition questionMarks : list string := ["?"].
Definition explanatoryConnectives : list string :=
  ["because"; "therefore"; "thus"; "so"; "hence"].
Definition sequenceMarkers : list string :=
  ["first"; "second"; "third"; "next"; "then"; "finally"].
Definition exampleMarkers : list string :=
  ["for example"; "such as"; "like"; "including"].

(** Two characters are the same letter when they are equal, or are the
    capital and the small form of one of the 26 letters. *)
Definition isCapital (n : nat) : bool := ((65 <=? n) && (n <=? 90))%nat.

Definition sameLetter (a b : ascii) : bool :=
  let m := nat_of_ascii a in
  let n := nat_of_ascii b in
  ((m =? n) || (isCapital m && (n =? m + 32)) || (isCapital n && (m =? n + 32)))%nat.

(** The text starts with the word, case ignored. *)
Fixpoint startsWithWord (word text : string) : bool :=
  match word, text with
  | EmptyString, _ => true
  | String _ _, EmptyString => false
  | String a word', String b text' => sameLetter a b && startsWithWord word' text'
  end.

(** The first word of the class the text starts with. *)
Definition wordAt (class : list string) (text : string) : option string :=
  List.find (fun word => startsWithWord word text) class.

Fixpoint dropChars (n : nat) (text : string) : string :=
  match n, text with
  | O, _ => text
  | S _, EmptyString => EmptyString
  | S n', String _ rest => dropChars n' rest
  end.

(** The occurrences of a class in a text, read from the left: where a word
    of the class starts, one occurrence is counted and the reading goes on
    after the word; elsewhere it goes on with the next character.  The fuel
    is the number of characters still to read. *)
Fixpoint occurrencesIn (fuel : nat) (class : list string) (text : string) : nat :=
  match fuel, text with
  | O, _ => 0
  | S _, EmptyString => 0
  | S fuel', String _ rest =>
      match wordAt class text with
      | Some word =>
          S (occurrencesIn fuel' class (dropChars (String.length word) text))
      | None => occurrencesIn fuel' class rest
      end
  end%nat.

Definition occurrences (class : list string) (text : string) : nat :=
  occurrencesIn (String.length text) class text.

(** The number of matches of the four pattern classes together. *)
Definition patternMatchCount (transcript : string) : nat :=
  (occurrences questionMarks transcript
   + occurrences explanatoryConnectives transcript
   + occurrences sequenceMarkers transcript
   + occurrences exampleMarkers transcript)%nat.

(** Section 4.3: the interaction score. *)
Definition interactionReference (transcript : string) (duration : Q) : Q :=
  if string_dec transcript EmptyString then 0
  else if Qeq_dec duration 0 then 0
  else
    let wpm := (inject_Z (Z.of_nat (wordCount transcript)) / duration) * 60 in
    let complexityScore :=
      Qmin 1 (inject_Z (Z.of_nat (patternMatchCount transcript)) / 10) in
    wpmBand wpm * 0.6 + complexityScore * 0.4.

(** Every character, for the checks that go through all of them. *)
Definition allChars : list ascii := List.map ascii_of_nat (seq 0 256).

(** The pattern characters on which a pattern of the code and a word of a
    class read the same: ASCII characters under the flag [i], ASCII
    characters that are no letter without it.  A plain word is not empty and
    made of such characters. *)
Definition plainChar (ci : bool) (p : ascii) : bool :=
  let n := nat_of_ascii p in
  ((n <? 128) && (ci || negb (isCapital n || between 97 122 n)))%nat.

Definition plainWord (ci : bool) (word : string) : bool :=
  truthy word && forallb (plainChar ci) (list_ascii_of_string word).

(** A string of white space only (the empty string is one). *)
Fixpoint blank (s : string) : bool :=
  match s with
  | EmptyString => true
  | String c r => isWhiteSpace c && blank r
  end.

(** A word: not empty, and without white space. *)
Fixpoint spaceFree (s : string) : bool :=
  match s with
  | EmptyString => true
  | String c r => negb (isWhiteSpace c) && spaceFree r
  end.

Definition isWord (s : string) : bool := truthy s && spaceFree s.

End Spec.


(** ** Sample inputs *)

Module Samples.

Import JS.
Local Open Scope Q_scope.
Local Open Scope string_scope.

(** A frame as [FaceAnalysis.tsx] builds it, seven keys, every value 0. *)
Definition zeroFrame : gmap string Q :=
  {[ "neutral" := 0; "happy" := 0; "sad" := 0; "angry" := 0;
     "fearful" := 0; "disgusted" := 0; "surprised" := 0 ]}.

Definition happyFrame : gmap string Q :=
  {[ "neutral" := 0.2; "happy" := 0.7; "sad" := 0; "angry" := 0;
     "fearful" := 0; "disgusted" := 0; "surprised" := 0.1 ]}.

Definition catTranscript : string :=
  "The cat sat. The cat ran. Because it was happy.".

Definition session (transcript topic : string) (duration : Q)
  : ScoringSystem.SessionData :=
  {| ScoringSystem.transcript := transcript;
     ScoringSystem.emotions := [happyFrame];
     ScoringSystem.voiceQualities := [];
     ScoringSystem.topic := topic;
     ScoringSystem.duration := duration |}.

(** A service that cannot be reached, and a parser that rejects its input. *)
Definition unreachable
  (client : ScoringSystem.GoogleGenerativeAI) (sd : ScoringSystem.SessionData)
  : result string := Throw "Failed to fetch".

Definition notJSON (text : string) : result ScoringSystem.Reply :=
  Throw "Unexpected token".

(** A service that answers, with a reply the code accepts. *)
Definition answering
  (client : ScoringSystem.GoogleGenerativeAI) (sd : ScoringSystem.SessionData)
  : result string := Ok "reply".

Definition parsed (text : string) : result ScoringSystem.Reply :=
  Ok {| ScoringSystem.replyScore := Some 0.9;
        ScoringSystem.replyFeedback := Some "Well done.";
        ScoringSystem.replySuggestions := Some [] |}.

(** A browser whose decoder rejects every buffer; blobs and buffers are the
    bytes themselves. *)
Definition readBlob (blob : string) : result string := Ok blob.
Definition audioContext : result unit := Ok tt.
Definition rejectAudio (ctx : unit) (buf : string) : result (list Q) :=
  Throw "EncodingError".
Definition channelOf (samples : list Q) (channel : nat) : result (list Q) :=
  Ok samples.

Definition goodSample : VoiceAnalysis.VoiceQuality :=
  {| VoiceAnalysis.clarity := 0.8; VoiceAnalysis.score := "Good";
     VoiceAnalysis.volume := 1; VoiceAnalysis.confidence := 0.8 |}.

(** A square root on the rationals for the examples, to three decimals and
    rounded down: the integer square root of the integer part of a million
    times the argument, over a thousand. *)
Definition floorSqrt (x : Q) : Q :=
  inject_Z (Z.sqrt (Qfloor (x * 1000000))) / 1000.

(** A browser that decodes a blob to the samples it holds. *)
Definition readSamples (blob : list Q) : result (list Q) := Ok blob.
Definition decodeSamples (ctx : unit) (buf : list Q) : result (list Q) := Ok buf.

(** Two sessions for the feedback dialog: one second with two words, four
    interactions and three emotions; and one without anything. *)
Definition remark (text : string) : FeedbackModal.AIMessage :=
  {| FeedbackModal.timestamp := 0;
     FeedbackModal.message := text;
     FeedbackModal.type := FeedbackModal.reaction |}.

Definition lively : FeedbackModal.TeachingSession :=
  {| FeedbackModal.topic := "cats";
     FeedbackModal.transcript := ["The cat"];
     FeedbackModal.emotions := ["neutral"; "happy"; "surprised"];
     FeedbackModal.aiInteractions :=
       [remark "Why?"; remark "I see."; remark "How?"; remark "Nice."];
     FeedbackModal.duration := 1000 |}.

Definition quiet : FeedbackModal.TeachingSession :=
  {| FeedbackModal.topic := "cats";
     FeedbackModal.transcript := [];
     FeedbackModal.emotions := ["neutral"];
     FeedbackModal.aiInteractions := [];
     FeedbackModal.duration := 0 |}.

End Samples.

(** ** Properties *)

Import JS.
Local Open Scope Q_scope.
Local Open Scope string_scope.

(** *** Numbers *)

Lemma Qle_bool_false (a b : Q) : Qle_bool a b = false -> b < a.
Proof.
  intros H. apply Qnot_le_lt. intros Hle.
  apply Qle_bool_iff in Hle. congruence.
Qed.

Ltac case_Qle a b :=
  let H := fresh "Hle" in
  destruct (Qle_bool a b) eqn:H;
  [apply Qle_bool_iff in H | apply Qle_bool_false in H].

Lemma Math_min_Qmin (a b : Q) : Math_min a b == Qmin a b.
Proof.
  unfold Math_min. case_Qle a b.
  - symmetry. apply Q.min_l. assumption.
  - symmetry. apply Q.min_r. lra.
Qed.

Lemma Math_max_Qmax (a b : Q) : Math_max a b == Qmax a b.
Proof.
  unfold Math_max. case_Qle a b.
  - symmetry. apply Q.max_r. assumption.
  - symmetry. apply Q.max_l. lra.
Qed.

Lemma clamp_clamp01 (x : Q) : Math_max 0 (Math_min 1 x) == Spec.clamp01 x.
Proof.
  unfold Spec.clamp01. rewrite Math_max_Qmax.
  apply Q.max_compat; [reflexivity | apply Math_min_Qmin].
Qed.

Lemma clamp_bounds (x : Q) : 0 <= Math_max 0 (Math_min 1 x) <= 1.
Proof.
  unfold Math_max, Math_min.
  case_Qle 1 x; [case_Qle 0 1 | case_Qle 0 x]; lra.
Qed.

(** *** The overall score *)

(** C2. The overall score is the weighted sum
    faceEngagement*0.2 + voiceClarity*0.25 + contentQuality*0.35 +
    interactionScore*0.2 of its four inputs and nothing more (no clamp: four
    inputs of 2 give 2); it is 1 when the four inputs are 1, and it lies in
    [[0,1]] whenever the four inputs do. *)
Theorem calculateOverallScore_weighted_sum :
  (forall fe vc cq ia : Q,
     ScoringSystem.calculateOverallScore fe vc cq ia
     == fe * 0.2 + vc * 0.25 + cq * 0.35 + ia * 0.2)
  /\ ScoringSystem.calculateOverallScore 1 1 1 1 == 1
  /\ ScoringSystem.calculateOverallScore 2 2 2 2 == 2
  /\ (forall fe vc cq ia : Q,
        0 <= fe <= 1 -> 0 <= vc <= 1 -> 0 <= cq <= 1 -> 0 <= ia <= 1 ->
        0 <= ScoringSystem.calculateOverallScore fe vc cq ia <= 1).
Proof.
  unfold ScoringSystem.calculateOverallScore.
  split; [| split; [| split]].
  - intros. reflexivity.
  - reflexivity.
  - reflexivity.
  - intros fe vc cq ia Hfe Hvc Hcq Hia. lra.
Qed.

Lemma calculateOverallScore_weighted_sum_witness :
  0 <= ScoringSystem.calculateOverallScore 0.5 1 0 0.25 <= 1.
Proof.
  apply (proj2 (proj2 (proj2 calculateOverallScore_weighted_sum)));
    split; vm_compute; discriminate.
Defined.

(** *** The two engagement formulas *)

Lemma calculateEngagementScore_liveEngagement (emotions : gmap string Q) :
  FaceAnalysis.calculateEngagementScore emotions
  == Spec.liveEngagement
       (prop emotions "happy") (prop emotions "neutral")
       (prop emotions "surprised") (prop emotions "sad")
       (prop emotions "angry") (prop emotions "disgusted")
       (prop emotions "fearful").
Proof.
  unfold FaceAnalysis.calculateEngagementScore, Spec.liveEngagement.
  cbv zeta. rewrite clamp_clamp01. reflexivity.
Qed.

Lemma frameEngagement_sessionFrameEngagement (emotion : gmap string Q) :
  ScoringSystem.frameEngagement emotion == Spec.sessionFrameEngagement emotion.
Proof.
  unfold ScoringSystem.frameEngagement, Spec.sessionFrameEngagement.
  cbv zeta. rewrite clamp_clamp01. reflexivity.
Qed.

(** C7. For a frame whose seven emotion values lie in [[0,1]], the live
    formula and the per-frame formula of the session average both give a
    value in [[0,1]]; the code computes exactly these two formulas. *)
Theorem engagement_formulas_in_unit (emotion : gmap string Q) :
  Spec.frameInUnit emotion ->
  (0 <= FaceAnalysis.calculateEngagementScore emotion <= 1
   /\ FaceAnalysis.calculateEngagementScore emotion
      == Spec.liveEngagement
           (prop emotion "happy") (prop emotion "neutral")
           (prop emotion "surprised") (prop emotion "sad")
           (prop emotion "angry")
           (prop emotion "disgusted")
           (prop emotion "fearful"))
  /\ (0 <= ScoringSystem.frameEngagement emotion <= 1
      /\ ScoringSystem.frameEngagement emotion
         == Spec.sessionFrameEngagement emotion).
Proof.
  intros _. repeat split.
  - apply clamp_bounds.
  - apply clamp_bounds.
  - apply calculateEngagementScore_liveEngagement.
  - apply clamp_bounds.
  - apply clamp_bounds.
  - apply frameEngagement_sessionFrameEngagement.
Qed.

Lemma engagement_formulas_in_unit_witness :
  Spec.frameInUnit Samples.happyFrame
  /\ 0 <= FaceAnalysis.calculateEngagementScore Samples.happyFrame <= 1.
Proof.
  assert (H : Spec.frameInUnit Samples.happyFrame)
    by (repeat constructor; vm_compute; discriminate).
  split; [exact H |].
  apply (engagement_formulas_in_unit Samples.happyFrame H).
Defined.

(** *** The face engagement of a session *)

Lemma Object_keys_nonempty (emotion : gmap string Q) :
  (0 <? List.length (ScoringSystem.Object_keys emotion))%nat
  = bool_decide (emotion ≠ ∅).
Proof.
  unfold ScoringSystem.Object_keys.
  rewrite length_fmap, length_map_to_list.
  destruct (decide (emotion = ∅)) as [-> | Hne].
  - rewrite map_size_empty, bool_decide_eq_false_2; [reflexivity |].
    intros H. apply H. reflexivity.
  - apply map_size_non_empty_iff in Hne as Hsz.
    rewrite bool_decide_eq_true_2 by assumption.
    apply Nat.ltb_lt. lia.
Qed.

Lemma sum_cons (x : Q) (l : list Q) : Spec.sum (x :: l) = x + Spec.sum l.
Proof. reflexivity. Qed.

(** The loop adds the engagement of the keyed frames to the total and their
    number to the counter. *)
Lemma fold_engagementStep
  (emotions : list (gmap string Q)) (total : Q) (valid : nat) :
  let keyed := filter (fun emotion => emotion ≠ ∅) emotions in
  let r := fold_left ScoringSystem.engagementStep emotions (total, valid) in
  r.1 == total + Spec.sum (Spec.sessionFrameEngagement <$> keyed)
  /\ r.2 = (valid + List.length keyed)%nat.
Proof.
  revert total valid.
  induction emotions as [| emotion emotions IH]; intros total valid; cbn zeta.
  - simpl. split; [lra | lia].
  - cbn [fold_left].
    assert (Hstep : ScoringSystem.engagementStep (total, valid) emotion =
              if bool_decide (emotion ≠ ∅)
              then (total + ScoringSystem.frameEngagement emotion, S valid)
              else (total, valid)).
    { unfold ScoringSystem.engagementStep.
      rewrite Object_keys_nonempty. reflexivity. }
    rewrite Hstep, filter_cons. clear Hstep.
    destruct (decide (emotion ≠ ∅)) as [Hne | He].
    + rewrite bool_decide_eq_true_2 by assumption.
      destruct (IH (total + ScoringSystem.frameEngagement emotion) (S valid))
        as [IH1 IH2].
      split.
      * rewrite IH1, fmap_cons, sum_cons.
        rewrite frameEngagement_sessionFrameEngagement. lra.
      * rewrite IH2. cbn [List.length]. lia.
    + rewrite bool_decide_eq_false_2 by assumption.
      apply IH.
Qed.

(** C1, as amended.  The face engagement of a session is the arithmetic mean
    of clamp01((happy + surprised*0.5)*0.8 + neutral*0.4 -
    (sad+angry+disgusted+fearful)*0.3) over exactly the frames that have at
    least one key, whatever the values are, and it is 0.5 when no frame has
    a key (so for the empty sequence). *)
Theorem calculateFaceEngagement_mean_over_keyed
  (emotions : list (gmap string Q)) :
  ScoringSystem.calculateFaceEngagement emotions
  == Spec.meanOr 0.5
       (Spec.sessionFrameEngagement
          <$> filter (fun emotion => emotion ≠ ∅) emotions).
Proof.
  unfold ScoringSystem.calculateFaceEngagement.
  destruct emotions as [| emotion emotions]; [reflexivity |].
  change (List.length (emotion :: emotions) =? 0)%nat with false. cbv iota.
  destruct (fold_engagementStep (emotion :: emotions) 0 0) as [Htotal Hvalid].
  cbv zeta in Htotal, Hvalid.
  destruct (fold_left ScoringSystem.engagementStep (emotion :: emotions)
              (0, 0%nat)) as [totalEngagement validFrames].
  cbn [fst snd] in Htotal, Hvalid.
  rewrite Nat.add_0_l in Hvalid. rewrite Qplus_0_l in Htotal.
  destruct (filter (fun e : gmap string Q => e ≠ ∅) (emotion :: emotions))
    as [| frame keyed] eqn:Hkeyed.
  - cbn [List.length] in Hvalid. subst validFrames. reflexivity.
  - rewrite Hvalid. cbn [List.length Nat.ltb Nat.leb].
    rewrite Htotal, fmap_cons. unfold Spec.meanOr.
    rewrite <- fmap_cons, length_fmap. reflexivity.
Qed.

(** C1, as worded, fails on a session of one frame whose seven values are
    all 0: the frame has keys, so the code counts it and returns its
    engagement, 0, where the wording has no valid frame and asks for 0.5. *)
Lemma calculateFaceEngagement_not_over_nonzero :
  ~ ScoringSystem.calculateFaceEngagement [Samples.zeroFrame]
    == Spec.faceEngagementAsWorded [Samples.zeroFrame].
Proof. vm_compute. discriminate. Qed.

Example calculateFaceEngagement_zeroFrame :
  ScoringSystem.calculateFaceEngagement [Samples.zeroFrame] == 0
  /\ Spec.faceEngagementAsWorded [Samples.zeroFrame] == 0.5
  /\ ScoringSystem.calculateFaceEngagement [Samples.happyFrame; Samples.zeroFrame]
     == 0.34
  /\ Spec.faceEngagementAsWorded [Samples.happyFrame; Samples.zeroFrame] == 0.68.
Proof. repeat split; vm_compute; reflexivity. Qed.

(** *** The voice clarity of a session *)

(** C9. On an empty sequence of samples the voice clarity is exactly 0.5. *)
Theorem calculateVoiceClarity_empty :
  ScoringSystem.calculateVoiceClarity [] = 0.5.
Proof. reflexivity. Qed.

(** *** The voice quality of a sample *)

Section BrowserFacts.

Variables Blob ArrayBuffer AudioContext AudioBuffer : Type.
Variable arrayBuffer : Blob -> result ArrayBuffer.
Variable newAudioContext : result AudioContext.
Variable decodeAudioData : AudioContext -> ArrayBuffer -> result AudioBuffer.
Variable getChannelData : AudioBuffer -> nat -> result (list Q).
Variable Math_sqrt : Q -> Q.

Let decodeChannel :=
  VoiceAnalysis.decodeChannel arrayBuffer newAudioContext decodeAudioData
    getChannelData.
Let analyzeVoiceQuality :=
  VoiceAnalysis.analyzeVoiceQuality arrayBuffer newAudioContext decodeAudioData
    getChannelData Math_sqrt.

(** A buffer the decoder rejects makes the first part of the block throw. *)
Lemma decodeAudioData_throws
  (blob : Blob) (buf : ArrayBuffer) (ctx : AudioContext) (e : string) :
  arrayBuffer blob = Ok buf -> newAudioContext = Ok ctx ->
  decodeAudioData ctx buf = Throw e ->
  decodeChannel blob = Throw e.
Proof.
  intros Hbuf Hctx Hdec. unfold decodeChannel, VoiceAnalysis.decodeChannel.
  rewrite Hbuf. cbn [bind]. rewrite Hctx. cbn [bind]. rewrite Hdec.
  reflexivity.
Qed.

Lemma analyzeVoiceQuality_cases (blob : Blob) :
  (exists e, decodeChannel blob = Throw e
             /\ analyzeVoiceQuality blob = Ok VoiceAnalysis.errorSample)
  \/ (exists channelData,
        decodeChannel blob = Ok channelData
        /\ analyzeVoiceQuality blob
           = Ok (VoiceAnalysis.measure Math_sqrt channelData)).
Proof.
  unfold analyzeVoiceQuality, VoiceAnalysis.analyzeVoiceQuality.
  fold decodeChannel.
  destruct (decodeChannel blob) as [channelData | e].
  - right. exists channelData. split; reflexivity.
  - left. exists e. split; reflexivity.
Qed.

(** C8. When the decoding of the sample fails, [analyzeVoiceQuality] does
    not throw: it returns the sample
    { clarity: 0, score: Error, volume: 0, confidence: 0 }. *)
Theorem analyzeVoiceQuality_decode_failure (blob : Blob) (e : string) :
  decodeChannel blob = Throw e ->
  analyzeVoiceQuality blob
  = Ok {| VoiceAnalysis.clarity := 0; VoiceAnalysis.score := "Error";
          VoiceAnalysis.volume := 0; VoiceAnalysis.confidence := 0 |}.
Proof.
  intros Hfail.
  destruct (analyzeVoiceQuality_cases blob)
    as [(e' & _ & Hres) | (channelData & Hok & _)].
  - exact Hres.
  - rewrite Hok in Hfail. discriminate.
Qed.

(** C10. Whatever the sample, [analyzeVoiceQuality] returns a record whose
    confidence is its clarity: the measured record when the sample decodes,
    the error sample (both 0) when it does not. *)
Theorem analyzeVoiceQuality_confidence_is_clarity (blob : Blob) :
  exists quality,
    analyzeVoiceQuality blob = Ok quality
    /\ VoiceAnalysis.confidence quality = VoiceAnalysis.clarity quality.
Proof.
  destruct (analyzeVoiceQuality_cases blob)
    as [(e & _ & Hres) | (channelData & _ & Hres)].
  - exists VoiceAnalysis.errorSample. split; [exact Hres | reflexivity].
  - exists (VoiceAnalysis.measure Math_sqrt channelData).
    split; [exact Hres | reflexivity].
Qed.

End BrowserFacts.

Lemma analyzeVoiceQuality_decode_failure_witness :
  VoiceAnalysis.analyzeVoiceQuality Samples.readBlob Samples.audioContext
    Samples.rejectAudio Samples.channelOf (fun x => x) "not audio"
  = Ok {| VoiceAnalysis.clarity := 0; VoiceAnalysis.score := "Error";
          VoiceAnalysis.volume := 0; VoiceAnalysis.confidence := 0 |}.
Proof.
  apply (analyzeVoiceQuality_decode_failure _ _ _ _ Samples.readBlob
           Samples.audioContext Samples.rejectAudio Samples.channelOf
           (fun x => x) "not audio" "EncodingError").
  reflexivity.
Defined.

(** *** The interaction score *)

Lemma truthy_false (s : string) : truthy s = false <-> s = EmptyString.
Proof. destruct s; simpl; split; intros H; congruence. Qed.

Lemma not_inBand (lo hi wpm : Q) :
  ~ Spec.inBand lo hi wpm -> wpm < lo \/ hi < wpm.
Proof.
  unfold Spec.inBand. intros H.
  destruct (Qlt_le_dec wpm lo) as [Hlo | Hlo]; [left; assumption |].
  destruct (Qlt_le_dec hi wpm) as [Hhi | Hhi]; [right; assumption |].
  exfalso. apply H. split; assumption.
Qed.

Ltac case_bands :=
  repeat match goal with
         | |- context [Qle_bool ?a ?b] => case_Qle a b; cbn [andb]
         end;
  try reflexivity; exfalso; lra.

Lemma wpmScore_wpmBand (wpm : Q) : ScoringSystem.wpmScore wpm == Spec.wpmBand wpm.
Proof.
  unfold ScoringSystem.wpmScore, Spec.wpmBand, geb, leb.
  destruct (Spec.inBand_dec 120 180 wpm) as [[H1 H2] | H]; [case_bands |].
  apply not_inBand in H.
  destruct (Spec.inBand_dec 100 200 wpm) as [[H1 H2] | H'];
    [destruct H; case_bands |].
  apply not_inBand in H'.
  destruct (Spec.inBand_dec 80 220 wpm) as [[H1 H2] | H''];
    [destruct H, H'; case_bands |].
  apply not_inBand in H''.
  destruct H, H', H''; case_bands.
Qed.

(** The characters: every one is in [Spec.allChars], so a property checked
    on the list holds of all. *)
Lemma in_allChars (c : ascii) : In c Spec.allChars.
Proof.
  unfold Spec.allChars. rewrite <- (ascii_nat_embedding c).
  apply in_map, in_seq. pose proof (nat_ascii_bounded c). lia.
Qed.

Lemma for_all_chars (P : ascii -> bool) :
  forallb P Spec.allChars = true -> forall c, P c = true.
Proof.
  intros H c. rewrite forallb_forall in H. apply H, in_allChars.
Qed.

Lemma isWhiteSpace_isSpace (c : ascii) : isWhiteSpace c = Spec.isSpace c.
Proof.
  apply Bool.eqb_prop.
  apply (for_all_chars (fun c => Bool.eqb (isWhiteSpace c) (Spec.isSpace c))).
  vm_compute. reflexivity.
Qed.

(** A pattern character of a pattern with the flag [i] that is an ASCII
    character, or of a pattern without the flag that is no letter, matches
    the characters that are the same letter. *)
Lemma charMatches_sameLetter (ci : bool) (p c : ascii) :
  Spec.plainChar ci p = true -> charMatches ci p c = Spec.sameLetter p c.
Proof.
  intros Hp. apply Bool.eqb_prop. revert Hp.
  generalize (for_all_chars
    (fun p => forallb
       (fun c => forallb
          (fun ci => implb (Spec.plainChar ci p)
                       (Bool.eqb (charMatches ci p c) (Spec.sameLetter p c)))
          [true; false])
       Spec.allChars)).
  intros Hall. specialize (Hall ltac:(vm_compute; reflexivity) p).
  rewrite forallb_forall in Hall. specialize (Hall c (in_allChars c)).
  rewrite forallb_forall in Hall.
  assert (Hci : In ci [true; false]) by (destruct ci; cbn; auto).
  specialize (Hall ci Hci). intros Hp. rewrite Hp in Hall. exact Hall.
Qed.

Lemma literalAt_startsWithWord (ci : bool) (word text : string) :
  forallb (Spec.plainChar ci) (list_ascii_of_string word) = true ->
  literalAt ci word text = Spec.startsWithWord word text.
Proof.
  revert text. induction word as [| a word IH]; intros text Hword.
  - reflexivity.
  - cbn in Hword. apply andb_prop in Hword as [Ha Hword].
    destruct text as [| b text]; [reflexivity |].
    cbn [literalAt Spec.startsWithWord].
    rewrite (charMatches_sameLetter ci a b Ha), IH by assumption.
    reflexivity.
Qed.

Lemma execAt_wordAt (ci : bool) (class : list string) (text : string) :
  forallb (Spec.plainWord ci) class = true ->
  execAt ci class text = String.length <$> Spec.wordAt class text.
Proof.
  unfold Spec.wordAt. induction class as [| word class IH]; intros Hclass.
  - reflexivity.
  - cbn in Hclass. apply andb_prop in Hclass as [Hword Hclass].
    apply andb_prop in Hword as [_ Hword].
    cbn [execAt List.find]. rewrite literalAt_startsWithWord by assumption.
    destruct (Spec.startsWithWord word text); [reflexivity |].
    apply IH. exact Hclass.
Qed.

Lemma wordAt_nonempty (ci : bool) (class : list string) (text word : string) :
  forallb (Spec.plainWord ci) class = true ->
  Spec.wordAt class text = Some word ->
  exists n, String.length word = S n.
Proof.
  intros Hclass Hfind. apply find_some in Hfind as [Hin _].
  rewrite forallb_forall in Hclass. specialize (Hclass word Hin).
  apply andb_prop in Hclass as [Hne _].
  destruct word as [| c word]; [discriminate |].
  exists (String.length word). reflexivity.
Qed.

Lemma dropChars_length (n : nat) (text : string) :
  (String.length (Spec.dropChars n text) <= String.length text)%nat.
Proof.
  revert text. induction n as [| n IH]; intros text; [cbn; lia |].
  destruct text as [| c rest]; cbn; [lia |].
  specialize (IH rest). lia.
Qed.

Section CountingMatches.

Variable re : RegExp.
Hypothesis plain : forallb (Spec.plainWord (ignoreCase re)) (alternatives re) = true.

Lemma execAt_empty : execAt (ignoreCase re) (alternatives re) EmptyString = None.
Proof.
  rewrite execAt_wordAt by exact plain.
  destruct (Spec.wordAt (alternatives re) EmptyString) as [word |] eqn:Hfind;
    [| reflexivity].
  destruct (wordAt_nonempty _ _ _ _ plain Hfind) as [n Hn].
  apply find_some in Hfind as [_ Hstarts].
  destruct word; [discriminate Hn | discriminate Hstarts].
Qed.

(** Passing the characters of a match one by one is dropping them. *)
Lemma matchesFrom_skip (text : string) (skip : nat) :
  List.length (matchesFrom re text skip)
  = List.length (matchesFrom re (Spec.dropChars skip text) 0).
Proof.
  revert skip. induction text as [| c rest IH]; intros skip.
  - destruct skip; [reflexivity |].
    cbn [Spec.dropChars matchesFrom]. rewrite execAt_empty. reflexivity.
  - destruct skip as [| skip]; [reflexivity |].
    cbn [matchesFrom Spec.dropChars]. apply IH.
Qed.

Lemma matchesFrom_occurrencesIn (fuel : nat) (text : string) :
  (String.length text <= fuel)%nat ->
  List.length (matchesFrom re text 0)
  = Spec.occurrencesIn fuel (alternatives re) text.
Proof.
  revert text. induction fuel as [| fuel IH]; intros text Hfuel.
  - destruct text; [| cbn in Hfuel; lia].
    cbn [matchesFrom]. rewrite execAt_empty. reflexivity.
  - destruct text as [| c rest].
    + cbn [matchesFrom]. rewrite execAt_empty. reflexivity.
    + cbn [String.length] in Hfuel.
      cbn [matchesFrom Spec.occurrencesIn].
      rewrite execAt_wordAt by exact plain.
      destruct (Spec.wordAt (alternatives re) (String c rest))
        as [word |] eqn:Hfind; cbn [fmap option_fmap option_map].
      * destruct (wordAt_nonempty _ _ _ _ plain Hfind) as [n Hn].
        rewrite Hn. cbn [List.length Nat.pred Spec.dropChars].
        rewrite matchesFrom_skip. f_equal. apply IH.
        pose proof (dropChars_length n rest). lia.
      * apply IH. lia.
Qed.

Lemma matchCount_occurrences (transcript : string) :
  ScoringSystem.matchCount transcript re
  = Spec.occurrences (alternatives re) transcript.
Proof.
  unfold ScoringSystem.matchCount, String_match, Spec.occurrences.
  rewrite <- matchesFrom_occurrencesIn by lia.
  destruct (matchesFrom re transcript 0); reflexivity.
Qed.

End CountingMatches.

Lemma interactionComplexity_patternMatchCount (transcript : string) :
  ScoringSystem.interactionComplexity transcript = Spec.patternMatchCount transcript.
Proof.
  unfold ScoringSystem.interactionComplexity, Spec.patternMatchCount,
    ScoringSystem.interactionPatterns.
  cbn [fold_left].
  rewrite !matchCount_occurrences by reflexivity.
  reflexivity.
Qed.

Lemma splitRuns_whiteRuns (text cur : string) (inRun : bool) :
  List.length (splitRuns isWhiteSpace text cur inRun)
  = S (Spec.whiteRuns text inRun).
Proof.
  revert cur inRun. induction text as [| c rest IH]; intros cur inRun.
  - reflexivity.
  - cbn [splitRuns Spec.whiteRuns]. rewrite <- isWhiteSpace_isSpace.
    destruct (isWhiteSpace c); [destruct inRun |]; cbn [List.length];
      rewrite IH; reflexivity.
Qed.

Lemma wordCount_pieces (transcript : string) :
  ScoringSystem.wordCount transcript = Spec.wordCount transcript.
Proof. apply splitRuns_whiteRuns. Qed.

Example reference_counts :
  Spec.wordCount " a  b " = 4%nat
  /\ Spec.wordCount "The cat sat." = 3%nat
  /\ Spec.occurrences Spec.explanatoryConnectives "So also because, SOme thus?"
     = 5%nat
  /\ Spec.occurrences Spec.questionMarks "Why? How??" = 3%nat
  /\ Spec.patternMatchCount "First, for example: why? Then like so." = 6%nat.
Proof. repeat split; vm_compute; reflexivity. Qed.


(** *** The local content analysis *)

Example catTranscript_pieces :
  ScoringSystem.topicKeywords "cats" = ["cats"]
  /\ includes (toLowerCase Samples.catTranscript) "cats" = false
  /\ includes (toLowerCase Samples.catTranscript) "cat" = true
  /\ ScoringSystem.sentences Samples.catTranscript
     = ["The cat sat"; " The cat ran"; " Because it was happy"]
  /\ ScoringSystem.wordCount Samples.catTranscript = 10%nat.
Proof. repeat split; reflexivity. Qed.

(** C3, as amended.  For the transcript
    [The cat sat. The cat ran. Because it was happy.] and the topic [cats]
    the local scorer counts no keyword match (the transcript, in lower case,
    does not contain [cats]), so the relevance is 0/1 = 0; it counts 3
    sentences, which is not more than 3, so the structure bonus is not
    added. *)
Theorem analyzeContentLocally_cat_sample :
  ScoringSystem.keywordMatches Samples.catTranscript "cats" = 0%nat
  /\ ScoringSystem.relevanceScore Samples.catTranscript "cats" == 0 / 1
  /\ List.length (ScoringSystem.sentences Samples.catTranscript) = 3%nat
  /\ ScoringSystem.structureBonus Samples.catTranscript == 0.
Proof.
  split; [| split; [| split]]; vm_compute; reflexivity.
Qed.

(** The score on this input is 0.5 - 0.2 + 0 + 0 + 0.05. *)
Example analyzeContentLocally_cat_score
  (emotions : list (gmap string Q))
  (voiceQualities : list (option VoiceAnalysis.VoiceQuality)) (duration : Q) :
  ScoringSystem.score
    (ScoringSystem.analyzeContentLocally
       {| ScoringSystem.transcript := Samples.catTranscript;
          ScoringSystem.emotions := emotions;
          ScoringSystem.voiceQualities := voiceQualities;
          ScoringSystem.topic := "cats";
          ScoringSystem.duration := duration |}) == 0.35.
Proof. vm_compute. reflexivity. Qed.

(** C3, as worded, fails: on this input there is not one keyword match, the
    relevance is not 1/1, and the structure bonus of 0.1 is not added. *)
Lemma analyzeContentLocally_cat_sample_as_worded :
  ScoringSystem.keywordMatches Samples.catTranscript "cats" <> 1%nat
  /\ ~ ScoringSystem.relevanceScore Samples.catTranscript "cats" == 1 / 1
  /\ ~ ScoringSystem.structureBonus Samples.catTranscript == 0.1.
Proof.
  split; [| split]; vm_compute; discriminate.
Qed.

(** *** The evaluation of a session *)

Lemma feedbackFor_not_default (contentScore : Q) :
  ScoringSystem.feedbackFor contentScore
  <> ScoringSystem.feedback ScoringSystem.getDefaultMetrics.
Proof.
  unfold ScoringSystem.feedbackFor, geb.
  repeat match goal with
         | |- context [Qle_bool ?a ?b] => destruct (Qle_bool a b)
         end; discriminate.
Qed.

Lemma analyzeContentLocally_feedback (sd : ScoringSystem.SessionData) :
  ScoringSystem.analysisFeedback (ScoringSystem.analyzeContentLocally sd)
  <> ScoringSystem.feedback ScoringSystem.getDefaultMetrics.
Proof.
  unfold ScoringSystem.analyzeContentLocally. cbv zeta.
  destruct (truthy (ScoringSystem.transcript sd)); cbn [negb].
  - match goal with
    | |- context [let '(_, _) := ?c in _] => destruct c as [contentScore sugg]
    end.
    cbn [ScoringSystem.analysisFeedback]. apply feedbackFor_not_default.
  - discriminate.
Qed.

Section RemoteFacts.

Variable generateContent :
  ScoringSystem.GoogleGenerativeAI -> ScoringSystem.SessionData -> result string.
Variable JSON_parse : string -> result ScoringSystem.Reply.

Let analyzeContentWithGemini :=
  ScoringSystem.analyzeContentWithGemini generateContent JSON_parse.
Let evaluateSession := ScoringSystem.evaluateSession generateContent JSON_parse.

(** The two ways the remote analysis fails. *)
Lemma analyzeContentWithGemini_throws
  (this : ScoringSystem.ComprehensiveScoring) (sd : ScoringSystem.SessionData)
  (client : ScoringSystem.GoogleGenerativeAI) (e : string) :
  ScoringSystem.genAI this = Some client ->
  (generateContent client sd = Throw e
   \/ exists text, generateContent client sd = Ok text
                   /\ JSON_parse text = Throw e) ->
  exists e', analyzeContentWithGemini this sd = Throw e'.
Proof.
  intros Hclient Hfail.
  unfold analyzeContentWithGemini, ScoringSystem.analyzeContentWithGemini.
  rewrite Hclient.
  destruct Hfail as [Hnet | (text & Htext & Hparse)].
  - rewrite Hnet. eexists. reflexivity.
  - rewrite Htext. cbn [bind]. rewrite Hparse. eexists. reflexivity.
Qed.

(** C4. With a client present and a transcript that is not empty, a remote
    analysis that throws (the call fails, or its text does not parse) makes
    [evaluateSession] return the metrics built from the local analysis (its
    score, feedback and suggestions) together with the face, voice and
    interaction scores already computed; these are not the default
    metrics. *)
Theorem evaluateSession_remote_failure_uses_local
  (this : ScoringSystem.ComprehensiveScoring) (sd : ScoringSystem.SessionData)
  (key : option string) (client : ScoringSystem.GoogleGenerativeAI)
  (e : string) :
  ScoringSystem.genAI (ScoringSystem.initialize this key) = Some client ->
  ScoringSystem.transcript sd <> EmptyString ->
  (generateContent client sd = Throw e
   \/ exists text, generateContent client sd = Ok text
                   /\ JSON_parse text = Throw e) ->
  let localAnalysis := ScoringSystem.analyzeContentLocally sd in
  let faceEngagement :=
    ScoringSystem.calculateFaceEngagement (ScoringSystem.emotions sd) in
  let voiceClarity :=
    ScoringSystem.calculateVoiceClarity (ScoringSystem.voiceQualities sd) in
  let interactionScore := ScoringSystem.calculateInteractionScore sd in
  (evaluateSession this sd key).1
  = {| ScoringSystem.faceEngagement := faceEngagement;
       ScoringSystem.voiceClarity := voiceClarity;
       ScoringSystem.contentQuality := ScoringSystem.score localAnalysis;
       ScoringSystem.interactionScore := interactionScore;
       ScoringSystem.overallScore :=
         ScoringSystem.calculateOverallScore faceEngagement voiceClarity
           (ScoringSystem.score localAnalysis) interactionScore;
       ScoringSystem.feedback := ScoringSystem.analysisFeedback localAnalysis;
       ScoringSystem.suggestions :=
         ScoringSystem.analysisSuggestions localAnalysis |}
  /\ (evaluateSession this sd key).1 <> ScoringSystem.getDefaultMetrics.
Proof.
  intros Hclient Hspoken Hfail. cbv zeta.
  destruct (analyzeContentWithGemini_throws _ sd client e Hclient Hfail)
    as [e' Hthrow].
  assert (Hcontent :
            ScoringSystem.contentAnalysis generateContent JSON_parse
              (ScoringSystem.initialize this key) sd
            = Ok (ScoringSystem.analyzeContentLocally sd)).
  { unfold ScoringSystem.contentAnalysis. rewrite Hclient.
    destruct (truthy (ScoringSystem.transcript sd)) eqn:Ht.
    - fold analyzeContentWithGemini. rewrite Hthrow. reflexivity.
    - reflexivity. }
  match goal with |- ?l = ?r /\ _ => assert (Hres : l = r) end.
  { unfold evaluateSession, ScoringSystem.evaluateSession,
      ScoringSystem.evaluate. cbv zeta.
    rewrite Hcontent. cbn [bind fst]. reflexivity. }
  split; [exact Hres |].
  rewrite Hres. intros Heq.
  apply (analyzeContentLocally_feedback sd).
  apply (f_equal ScoringSystem.feedback) in Heq. exact Heq.
Qed.

(** C6. On an empty transcript the content analysis is the fixed no-speech
    response (score 0.2, feedback [No speech detected during the session.],
    the two suggestions), and [evaluateSession] reports it whatever the
    scorer and the key are: the remote analysis is not entered. *)
Theorem evaluateSession_empty_transcript
  (this : ScoringSystem.ComprehensiveScoring) (sd : ScoringSystem.SessionData)
  (key : option string) :
  ScoringSystem.transcript sd = EmptyString ->
  ScoringSystem.analyzeContentLocally sd
  = {| ScoringSystem.score := 0.2;
       ScoringSystem.analysisFeedback := "No speech detected during the session.";
       ScoringSystem.analysisSuggestions :=
         ["Ensure microphone is working"; "Speak clearly and loudly"] |}
  /\ ScoringSystem.contentQuality (evaluateSession this sd key).1 = 0.2
  /\ ScoringSystem.feedback (evaluateSession this sd key).1
     = "No speech detected during the session."
  /\ ScoringSystem.suggestions (evaluateSession this sd key).1
     = ["Ensure microphone is working"; "Speak clearly and loudly"].
Proof.
  intros Hempty.
  assert (Hlocal : ScoringSystem.analyzeContentLocally sd = ScoringSystem.noSpeech).
  { unfold ScoringSystem.analyzeContentLocally. cbv zeta.
    rewrite Hempty. reflexivity. }
  assert (Hcontent :
            ScoringSystem.contentAnalysis generateContent JSON_parse
              (ScoringSystem.initialize this key) sd
            = Ok ScoringSystem.noSpeech).
  { unfold ScoringSystem.contentAnalysis. rewrite Hempty, Hlocal.
    destruct (ScoringSystem.genAI _); reflexivity. }
  split; [exact Hlocal |].
  unfold evaluateSession, ScoringSystem.evaluateSession, ScoringSystem.evaluate.
  cbv zeta. rewrite Hcontent. cbn [bind fst].
  split; [| split]; reflexivity.
Qed.

End RemoteFacts.

Lemma evaluateSession_remote_failure_uses_local_witness :
  let sd := Samples.session Samples.catTranscript "cats" 60 in
  let this := ScoringSystem.constructor None in
  ScoringSystem.genAI (ScoringSystem.initialize this (Some "k"))
  = Some {| ScoringSystem.apiKey := "k" |}
  /\ ScoringSystem.transcript sd <> EmptyString
  /\ Samples.unreachable {| ScoringSystem.apiKey := "k" |} sd
     = Throw "Failed to fetch"
  /\ (ScoringSystem.evaluateSession Samples.unreachable Samples.notJSON
        this sd (Some "k")).1
     <> ScoringSystem.getDefaultMetrics.
Proof.
  cbv zeta.
  split; [reflexivity |]. split; [discriminate |]. split; [reflexivity |].
  refine (proj2 (evaluateSession_remote_failure_uses_local
                   Samples.unreachable Samples.notJSON
                   (ScoringSystem.constructor None)
                   (Samples.session Samples.catTranscript "cats" 60)
                   (Some "k") {| ScoringSystem.apiKey := "k" |}
                   "Failed to fetch" _ _ _)).
  - reflexivity.
  - discriminate.
  - left. reflexivity.
Defined.

Lemma evaluateSession_empty_transcript_witness :
  let sd := Samples.session EmptyString "cats" 60 in
  let this := ScoringSystem.constructor (Some "k") in
  ScoringSystem.transcript sd = EmptyString
  /\ ScoringSystem.contentQuality
       (ScoringSystem.evaluateSession Samples.answering Samples.parsed
          this sd (Some "k")).1 = 0.2.
Proof.
  cbv zeta. split; [reflexivity |].
  refine (proj1 (proj2 (evaluateSession_empty_transcript
                          Samples.answering Samples.parsed
                          (ScoringSystem.constructor (Some "k"))
                          (Samples.session EmptyString "cats" 60)
                          (Some "k") _))).
  reflexivity.
Defined.

Example evaluateSession_unparsable_reply :
  let metrics :=
    (ScoringSystem.evaluateSession Samples.answering Samples.notJSON
       (ScoringSystem.constructor (Some "k"))
       (Samples.session Samples.catTranscript "cats" 60) None).1 in
  ScoringSystem.faceEngagement metrics == 0.68
  /\ ScoringSystem.voiceClarity metrics == 0.5
  /\ ScoringSystem.contentQuality metrics == 0.35
  /\ ScoringSystem.interactionScore metrics == 0.28
  /\ ScoringSystem.overallScore metrics == 0.4395
  /\ ScoringSystem.feedback metrics
     = "Presentation needs significant improvement in content and delivery."
  /\ ScoringSystem.suggestions metrics
     = ["Provide more detailed explanations";
        "Stay more focused on the main topic";
        "Provide more detailed explanations";
        "Include examples to illustrate your points"].
Proof. vm_compute. repeat split. Qed.

(** ** Further properties of the scoring pipeline *)

(** *** Means *)

Lemma of_nat_nonneg (n : nat) : 0 <= of_nat n.
Proof.
  unfold of_nat. change 0 with (inject_Z 0). rewrite <- Zle_Qle. lia.
Qed.

Lemma of_nat_pos (n : nat) : (0 < n)%nat -> 0 < of_nat n.
Proof.
  intros H. unfold of_nat. change 0 with (inject_Z 0).
  rewrite <- Zlt_Qlt. lia.
Qed.

Lemma of_nat_succ (n : nat) : of_nat (S n) == of_nat n + 1.
Proof.
  unfold of_nat. rewrite Nat2Z.inj_succ, <- Z.add_1_r, inject_Z_plus.
  reflexivity.
Qed.

Lemma of_nat_le (n m : nat) : (n <= m)%nat -> of_nat n <= of_nat m.
Proof. intros H. unfold of_nat. rewrite <- Zle_Qle. lia. Qed.

Lemma div_in_unit (s n : Q) : 0 < n -> 0 <= s <= n -> 0 <= s / n <= 1.
Proof.
  intros Hn [H0 H1]. split.
  - apply Qle_shift_div_l; [assumption | lra].
  - apply Qle_shift_div_r; [assumption | lra].
Qed.

Lemma sum_in_unit (l : list Q) :
  Forall (fun x => 0 <= x <= 1) l -> 0 <= Spec.sum l <= of_nat (List.length l).
Proof.
  induction 1 as [| x l Hx _ IH].
  - split; vm_compute; discriminate.
  - rewrite sum_cons. cbn [List.length]. rewrite of_nat_succ. lra.
Qed.

Lemma meanOr_in_unit (d : Q) (l : list Q) :
  0 <= d <= 1 -> Forall (fun x => 0 <= x <= 1) l -> 0 <= Spec.meanOr d l <= 1.
Proof.
  intros Hd Hl. destruct l as [| x l]; [exact Hd |].
  unfold Spec.meanOr. apply div_in_unit.
  - apply of_nat_pos. cbn. lia.
  - apply sum_in_unit. assumption.
Qed.

(** The face engagement as a mean, for use below. *)
Lemma faceEngagement_mean (emotions : list (gmap string Q)) :
  ScoringSystem.calculateFaceEngagement emotions
  == Spec.meanOr 0.5
       (Spec.sessionFrameEngagement
          <$> filter (fun emotion => emotion ≠ ∅) emotions).
Proof.
  unfold ScoringSystem.calculateFaceEngagement.
  destruct emotions as [| emotion emotions]; [reflexivity |].
  change (List.length (emotion :: emotions) =? 0)%nat with false. cbv iota.
  destruct (fold_engagementStep (emotion :: emotions) 0 0) as [Htotal Hvalid].
  cbv zeta in Htotal, Hvalid.
  destruct (fold_left ScoringSystem.engagementStep (emotion :: emotions)
              (0, 0%nat)) as [totalEngagement validFrames].
  cbn [fst snd] in Htotal, Hvalid.
  rewrite Nat.add_0_l in Hvalid. rewrite Qplus_0_l in Htotal.
  destruct (filter (fun e : gmap string Q => e ≠ ∅) (emotion :: emotions))
    as [| frame keyed] eqn:Hkeyed.
  - cbn [List.length] in Hvalid. subst validFrames. reflexivity.
  - rewrite Hvalid. cbn [List.length Nat.ltb Nat.leb].
    rewrite Htotal, fmap_cons. unfold Spec.meanOr.
    rewrite <- fmap_cons, length_fmap. reflexivity.
Qed.

Lemma sessionFrameEngagement_in_unit (emotion : gmap string Q) :
  0 <= Spec.sessionFrameEngagement emotion <= 1.
Proof.
  rewrite <- frameEngagement_sessionFrameEngagement. apply clamp_bounds.
Qed.

(** X1. For frames whose emotion values lie in [[0,1]], the face engagement
    of a session lies in [[0,1]], whatever the number of frames and whether
    keys are missing or frames are empty. *)
Theorem calculateFaceEngagement_in_unit (emotions : list (gmap string Q)) :
  Forall Spec.frameInUnit emotions ->
  0 <= ScoringSystem.calculateFaceEngagement emotions <= 1.
Proof.
  intros _. rewrite faceEngagement_mean. apply meanOr_in_unit; [lra |].
  apply Forall_fmap, Forall_forall. intros emotion _.
  apply sessionFrameEngagement_in_unit.
Qed.

Lemma happyFrame_in_unit : Spec.frameInUnit Samples.happyFrame.
Proof. repeat constructor; vm_compute; discriminate. Qed.

Lemma zeroFrame_in_unit : Spec.frameInUnit Samples.zeroFrame.
Proof. repeat constructor; vm_compute; discriminate. Qed.

Lemma calculateFaceEngagement_in_unit_witness :
  0 <= ScoringSystem.calculateFaceEngagement
         [Samples.happyFrame; ∅; Samples.zeroFrame] <= 1.
Proof.
  apply (calculateFaceEngagement_in_unit
           [Samples.happyFrame; ∅; Samples.zeroFrame]).
  apply Forall_cons; split; [apply happyFrame_in_unit |].
  apply Forall_cons; split; [repeat constructor; vm_compute; discriminate |].
  apply Forall_cons; split; [apply zeroFrame_in_unit | apply Forall_nil_2].
Defined.

(** X2. Frames without keys do not count: inserting an empty frame anywhere
    in the history leaves the face engagement unchanged. *)
Theorem calculateFaceEngagement_skips_empty
  (before after : list (gmap string Q)) :
  ScoringSystem.calculateFaceEngagement (before ++ ∅ :: after)
  == ScoringSystem.calculateFaceEngagement (before ++ after).
Proof.
  rewrite !faceEngagement_mean, !filter_app, filter_cons.
  destruct (decide ((∅ : gmap string Q) ≠ ∅)) as [Hne | _];
    [exfalso; apply Hne; reflexivity |].
  reflexivity.
Qed.

(** X3. A session of one frame that has a key and whose emotion values lie
    in [[0,1]] scores the engagement the panel shows for that frame
    ([calculateCurrentEngagement]): the two formulas are the same, and the
    mean of one value is the value. *)
Theorem calculateFaceEngagement_single_frame (emotion : gmap string Q) :
  emotion ≠ ∅ ->
  Spec.frameInUnit emotion ->
  ScoringSystem.calculateFaceEngagement [emotion]
  == EvaluationPanel.calculateCurrentEngagement (Some emotion).
Proof.
  intros Hne _. unfold ScoringSystem.calculateFaceEngagement.
  change (List.length [emotion] =? 0)%nat with false. cbv iota.
  cbn [fold_left]. unfold ScoringSystem.engagementStep.
  rewrite Object_keys_nonempty, bool_decide_eq_true_2 by assumption.
  change (0 <? 1)%nat with true. cbv iota.
  change (EvaluationPanel.calculateCurrentEngagement (Some emotion))
    with (ScoringSystem.frameEngagement emotion).
  change (of_nat 1) with 1. field.
Qed.

Lemma calculateFaceEngagement_single_frame_witness :
  Samples.happyFrame ≠ ∅
  /\ ScoringSystem.calculateFaceEngagement [Samples.happyFrame]
     == EvaluationPanel.calculateCurrentEngagement (Some Samples.happyFrame).
Proof.
  assert (H : Samples.happyFrame ≠ ∅) by apply insert_non_empty.
  split; [exact H |].
  apply (calculateFaceEngagement_single_frame Samples.happyFrame H).
  repeat constructor; vm_compute; discriminate.
Defined.

(** *** The voice clarity of a session *)

Lemma clamp_id_unit (x : Q) : 0 <= x <= 1 -> Math_max 0 (Math_min 1 x) == x.
Proof.
  intros [H0 H1]. unfold Math_max, Math_min.
  case_Qle 1 x; [case_Qle 0 1 | case_Qle 0 x]; lra.
Qed.

Lemma fold_clarity (l : list (option VoiceAnalysis.VoiceQuality)) (acc : Q) :
  fold_left (fun sum quality => sum + ScoringSystem.clarityOf quality) l acc
  == acc + Spec.sum (ScoringSystem.clarityOf <$> l).
Proof.
  revert acc. induction l as [| q l IH]; intros acc.
  - cbn. lra.
  - cbn [fold_left]. rewrite IH, fmap_cons, sum_cons. lra.
Qed.

(** X4. When every sample has a clarity in [[0,1]], the voice clarity of a
    session is the arithmetic mean of the clarities, a missing sample
    ([null]) counting as a sample of clarity 0; it is 0.5 without
    samples. *)
Theorem calculateVoiceClarity_mean
  (voiceQualities : list (option VoiceAnalysis.VoiceQuality)) :
  Forall (fun quality => 0 <= ScoringSystem.clarityOf quality <= 1)
    voiceQualities ->
  ScoringSystem.calculateVoiceClarity voiceQualities
  == Spec.meanOr 0.5 (ScoringSystem.clarityOf <$> voiceQualities).
Proof.
  intros Hunit. unfold ScoringSystem.calculateVoiceClarity.
  destruct voiceQualities as [| q l]; [reflexivity |].
  change (List.length (q :: l) =? 0)%nat with false. cbv iota zeta.
  assert (Hmean :
    fold_left (fun sum quality => sum + ScoringSystem.clarityOf quality)
      (q :: l) 0 / of_nat (List.length (q :: l))
    == Spec.meanOr 0.5 (ScoringSystem.clarityOf <$> q :: l)).
  { rewrite fold_clarity, Qplus_0_l, fmap_cons. unfold Spec.meanOr.
    rewrite <- fmap_cons, length_fmap. reflexivity. }
  assert (Hbounds : 0 <= Spec.meanOr 0.5 (ScoringSystem.clarityOf <$> q :: l) <= 1).
  { apply meanOr_in_unit; [lra |]. apply Forall_fmap. exact Hunit. }
  rewrite <- Hmean in Hbounds |- *.
  apply clamp_id_unit. exact Hbounds.
Qed.

Lemma calculateVoiceClarity_mean_witness :
  let history := [Some Samples.goodSample; None; Some VoiceAnalysis.errorSample] in
  Forall (fun quality => 0 <= ScoringSystem.clarityOf quality <= 1) history
  /\ ScoringSystem.calculateVoiceClarity history
     == Spec.meanOr 0.5 (ScoringSystem.clarityOf <$> history).
Proof.
  cbv zeta.
  assert (H : Forall (fun quality => 0 <= ScoringSystem.clarityOf quality <= 1)
                [Some Samples.goodSample; None; Some VoiceAnalysis.errorSample])
    by (repeat constructor; vm_compute; discriminate).
  split; [exact H |].
  apply (calculateVoiceClarity_mean _ H).
Defined.

(** *** The interaction score *)

Lemma wpmScore_range (wpm : Q) : 0.4 <= ScoringSystem.wpmScore wpm <= 1.
Proof.
  unfold ScoringSystem.wpmScore.
  repeat match goal with
         | |- context [if ?c then _ else _] => destruct c
         end; lra.
Qed.

Lemma complexity_range (n : nat) : 0 <= Math_min 1 (of_nat n / 10) <= 1.
Proof.
  pose proof (of_nat_nonneg n) as Hn.
  unfold Math_min. case_Qle 1 (of_nat n / 10); [lra |].
  split; [| lra]. apply Qle_shift_div_l; lra.
Qed.

(** X5. The interaction score is 0 exactly in the two guarded cases (empty
    transcript, duration 0); in every other case it lies between 0.24 and 1,
    so a session that was spoken never scores below 0.24, however slow or
    fast the pace is (a negative duration included). *)
Theorem calculateInteractionScore_range (sd : ScoringSystem.SessionData) :
  (ScoringSystem.calculateInteractionScore sd == 0
   /\ (ScoringSystem.transcript sd = EmptyString
       \/ ScoringSystem.duration sd == 0))
  \/ (0.24 <= ScoringSystem.calculateInteractionScore sd <= 1
      /\ ScoringSystem.transcript sd <> EmptyString
      /\ ~ ScoringSystem.duration sd == 0).
Proof.
  unfold ScoringSystem.calculateInteractionScore. cbv zeta.
  destruct (truthy (ScoringSystem.transcript sd)) eqn:Ht; cbn [negb orb].
  - unfold eqb. destruct (Qeq_bool (ScoringSystem.duration sd) 0) eqn:Hd.
    + left. split; [reflexivity |]. right. apply Qeq_bool_iff. exact Hd.
    + right. split; [| split].
      * pose proof (wpmScore_range
                      (of_nat (ScoringSystem.wordCount (ScoringSystem.transcript sd))
                       / ScoringSystem.duration sd * 60)) as Hw.
        pose proof (complexity_range
                      (ScoringSystem.interactionComplexity
                         (ScoringSystem.transcript sd))) as Hc.
        lra.
      * intros He. rewrite He in Ht. discriminate.
      * intros Hz. apply Qeq_bool_iff in Hz. congruence.
  - left. split; [reflexivity |]. left. apply truthy_false. exact Ht.
Qed.

(** *** The local content analysis *)

Lemma splitRuns_length (sep : ascii -> bool) (s cur : string) (inRun : bool) :
  (1 <= List.length (splitRuns sep s cur inRun))%nat.
Proof.
  revert cur inRun. induction s as [| c r IH]; intros cur inRun; cbn.
  - lia.
  - destruct (sep c); [destruct inRun |]; cbn; try apply IH. lia.
Qed.

Lemma filter_length_le {A : Type} (f : A -> bool) (l : list A) :
  (List.length (List.filter f l) <= List.length l)%nat.
Proof.
  induction l as [| x l IH]; cbn; [lia |].
  destruct (f x); cbn; lia.
Qed.

Lemma filter_all {A : Type} (f : A -> bool) (l : list A) :
  Forall (fun x => f x = true) l -> List.filter f l = l.
Proof.
  induction 1 as [| x l Hx _ IH]; cbn; [reflexivity |].
  rewrite Hx, IH. reflexivity.
Qed.

Lemma startsWith_empty (s : string) : startsWith s EmptyString = true.
Proof. destruct s; reflexivity. Qed.

Lemma includes_empty (s : string) : includes s EmptyString = true.
Proof. destruct s; cbn; rewrite ?startsWith_empty; reflexivity. Qed.

Lemma toLowerChar_space (c : ascii) :
  isWhiteSpace c = true -> toLowerChar c = c.
Proof.
  destruct c as [[] [] [] [] [] [] [] []]; vm_compute; intros H;
    first [reflexivity | discriminate H].
Qed.

Lemma toLowerCase_blank (s : string) :
  Spec.blank s = true -> toLowerCase s = s.
Proof.
  induction s as [| c r IH]; cbn; [reflexivity |].
  intros H. apply andb_prop in H as [Hc Hr].
  rewrite toLowerChar_space, IH by assumption. reflexivity.
Qed.

Lemma splitRuns_blank (s : string) (inRun : bool) :
  Spec.blank s = true ->
  Forall (fun piece => piece = EmptyString)
    (splitRuns isWhiteSpace s EmptyString inRun).
Proof.
  revert inRun. induction s as [| c r IH]; intros inRun H; cbn.
  - repeat constructor.
  - cbn in H. apply andb_prop in H as [Hc Hr]. rewrite Hc.
    destruct inRun; [apply IH; assumption |].
    constructor; [reflexivity | apply IH; assumption].
Qed.

(** X6. The topic relevance is a fraction between 0 and 1.  A keyword that
    is the empty string is found in every transcript, so a topic that is
    empty or holds white space only has relevance 1: the full 0.3 goes to
    a session without a topic. *)
Theorem relevanceScore_range_and_blank_topic (transcript topic : string) :
  0 <= ScoringSystem.relevanceScore transcript topic <= 1
  /\ (Spec.blank topic = true ->
      ScoringSystem.relevanceScore transcript topic == 1).
Proof.
  unfold ScoringSystem.relevanceScore, ScoringSystem.keywordMatches.
  cbv zeta.
  assert (Hlen : (1 <= List.length (ScoringSystem.topicKeywords topic))%nat)
    by apply splitRuns_length.
  assert (Hpos : 0 < of_nat (List.length (ScoringSystem.topicKeywords topic)))
    by (apply of_nat_pos; lia).
  split.
  - apply div_in_unit; [exact Hpos |]. split.
    + apply of_nat_nonneg.
    + apply of_nat_le, filter_length_le.
  - intros Hblank. rewrite filter_all.
    + field. lra.
    + unfold ScoringSystem.topicKeywords, split.
      rewrite (toLowerCase_blank topic) by assumption.
      eapply Forall_impl; [apply splitRuns_blank; assumption |].
      cbn beta. intros keyword ->. apply includes_empty.
Qed.

Lemma relevanceScore_range_and_blank_topic_witness :
  Spec.blank "  " = true
  /\ ScoringSystem.relevanceScore Samples.catTranscript "  " == 1.
Proof.
  split; [reflexivity |].
  apply (proj2 (relevanceScore_range_and_blank_topic Samples.catTranscript "  ")).
  reflexivity.
Defined.

Lemma analyzeContentLocally_spoken (sd : ScoringSystem.SessionData) :
  ScoringSystem.transcript sd <> EmptyString ->
  exists base suggestions,
    (base, suggestions)
    = (if (ScoringSystem.wordCount (ScoringSystem.transcript sd) <? 50)%nat
       then (0.5 - 0.2, push [] "Provide more detailed explanations")
       else if (500 <? ScoringSystem.wordCount (ScoringSystem.transcript sd))%nat
       then (0.5 + 0.1, [])
       else (0.5, []))
    /\ ScoringSystem.analyzeContentLocally sd
       = let transcript := ScoringSystem.transcript sd in
         let relevanceScore :=
           ScoringSystem.relevanceScore transcript (ScoringSystem.topic sd) in
         let contentScore :=
           Math_max 0 (Math_min 1
             (base + relevanceScore * 0.3 + ScoringSystem.structureBonus transcript
              + ScoringSystem.educationalScore transcript)) in
         let suggestions :=
           if ltb relevanceScore 0.5
           then push suggestions "Stay more focused on the main topic"
           else suggestions in
         let suggestions :=
           if (ScoringSystem.wordCount transcript <? 100)%nat
           then push suggestions "Provide more detailed explanations"
           else suggestions in
         let suggestions :=
           match String_match transcript ScoringSystem.examplePattern with
           | None => push suggestions "Include examples to illustrate your points"
           | Some _ => suggestions
           end in
         {| ScoringSystem.score := contentScore;
            ScoringSystem.analysisFeedback := ScoringSystem.feedbackFor contentScore;
            ScoringSystem.analysisSuggestions := suggestions |}.
Proof.
  intros Hne. unfold ScoringSystem.analyzeContentLocally. cbv zeta.
  destruct (truthy (ScoringSystem.transcript sd)) eqn:Ht;
    [| apply truthy_false in Ht; contradiction].
  cbn [negb].
  destruct (if (ScoringSystem.wordCount (ScoringSystem.transcript sd) <? 50)%nat
            then _ else _) as [base suggestions] eqn:Hbase.
  exists base, suggestions. split; reflexivity.
Qed.

(** X7. For a transcript that is not empty and has fewer than 50 words, the
    suggestion [Provide more detailed explanations] is in the list twice:
    the test on 50 words and the test on 100 words each add it. *)
Theorem analyzeContentLocally_short_repeats_suggestion
  (sd : ScoringSystem.SessionData) :
  ScoringSystem.transcript sd <> EmptyString ->
  (ScoringSystem.wordCount (ScoringSystem.transcript sd) < 50)%nat ->
  count_occ string_dec
    (ScoringSystem.analysisSuggestions (ScoringSystem.analyzeContentLocally sd))
    "Provide more detailed explanations" = 2%nat.
Proof.
  intros Hne Hshort.
  destruct (analyzeContentLocally_spoken sd Hne)
    as (base & suggestions & Hbase & ->).
  assert (H50 : (ScoringSystem.wordCount (ScoringSystem.transcript sd) <? 50)%nat
                = true) by (apply Nat.ltb_lt; lia).
  assert (H100 : (ScoringSystem.wordCount (ScoringSystem.transcript sd) <? 100)%nat
                 = true) by (apply Nat.ltb_lt; lia).
  rewrite H50 in Hbase. injection Hbase as -> ->.
  cbv zeta. cbn [ScoringSystem.analysisSuggestions]. rewrite H100.
  destruct (ltb _ 0.5);
    destruct (String_match _ ScoringSystem.examplePattern); reflexivity.
Qed.

Lemma analyzeContentLocally_short_repeats_suggestion_witness :
  let sd := Samples.session Samples.catTranscript "cats" 60 in
  ScoringSystem.transcript sd <> EmptyString
  /\ (ScoringSystem.wordCount (ScoringSystem.transcript sd) < 50)%nat
  /\ count_occ string_dec
       (ScoringSystem.analysisSuggestions (ScoringSystem.analyzeContentLocally sd))
       "Provide more detailed explanations" = 2%nat.
Proof.
  cbv zeta.
  assert (H1 : ScoringSystem.transcript
                 (Samples.session Samples.catTranscript "cats" 60)
               <> EmptyString) by discriminate.
  assert (H2 : (ScoringSystem.wordCount
                  (ScoringSystem.transcript
                     (Samples.session Samples.catTranscript "cats" 60)) < 50)%nat)
    by (vm_compute; lia).
  split; [exact H1 |]. split; [exact H2 |].
  apply (analyzeContentLocally_short_repeats_suggestion _ H1 H2).
Defined.

(** X8. The feedback sentence of the local analysis and the colour the
    panel gives to its score go together, for every transcript that is not
    empty: green with the sentence on an excellent presentation, blue with
    the good one, yellow with the adequate one, red with the last. *)
Theorem analyzeContentLocally_feedback_matches_colour
  (sd : ScoringSystem.SessionData) :
  ScoringSystem.transcript sd <> EmptyString ->
  let analysis := ScoringSystem.analyzeContentLocally sd in
  let colour := EvaluationPanel.getScoreColor (ScoringSystem.score analysis) in
  let sentence := ScoringSystem.analysisFeedback analysis in
  (colour = "text-green-500"
   /\ sentence
      = "Excellent presentation with clear explanations and good topic coverage.")
  \/ (colour = "text-blue-500"
      /\ sentence
         = "Good presentation with room for improvement in detail and clarity.")
  \/ (colour = "text-yellow-500"
      /\ sentence
         = "Adequate presentation but needs more comprehensive coverage.")
  \/ (colour = "text-red-500"
      /\ sentence
         = "Presentation needs significant improvement in content and delivery.").
Proof.
  intros Hne.
  destruct (analyzeContentLocally_spoken sd Hne)
    as (base & suggestions & _ & ->).
  cbv zeta. cbn [ScoringSystem.score ScoringSystem.analysisFeedback].
  match goal with
  | |- context [EvaluationPanel.getScoreColor ?x] => generalize x
  end.
  intros contentScore.
  unfold EvaluationPanel.getScoreColor, ScoringSystem.feedbackFor.
  destruct (geb contentScore 0.8); [left; split; reflexivity |].
  destruct (geb contentScore 0.6); [right; left; split; reflexivity |].
  destruct (geb contentScore 0.4); [right; right; left; split; reflexivity |].
  right; right; right; split; reflexivity.
Qed.

Lemma analyzeContentLocally_feedback_matches_colour_witness :
  let sd := Samples.session Samples.catTranscript "cats" 60 in
  ScoringSystem.transcript sd <> EmptyString
  /\ EvaluationPanel.getScoreColor
       (ScoringSystem.score (ScoringSystem.analyzeContentLocally sd))
     = "text-red-500".
Proof.
  cbv zeta.
  assert (H1 : ScoringSystem.transcript
                 (Samples.session Samples.catTranscript "cats" 60)
               <> EmptyString) by discriminate.
  split; [exact H1 |].
  destruct (analyzeContentLocally_feedback_matches_colour _ H1)
    as [[Hc _] | [[Hc _] | [[Hc _] | [Hc _]]]];
    first [exact Hc | vm_compute in Hc; discriminate Hc].
Defined.

(** *** The remote analysis and the evaluation of a session *)

Lemma analyzeContentLocally_score_in_unit (sd : ScoringSystem.SessionData) :
  0 <= ScoringSystem.score (ScoringSystem.analyzeContentLocally sd) <= 1.
Proof.
  destruct (string_dec (ScoringSystem.transcript sd) EmptyString) as [He | Hne].
  - unfold ScoringSystem.analyzeContentLocally. cbv zeta. rewrite He.
    split; vm_compute; discriminate.
  - destruct (analyzeContentLocally_spoken sd Hne) as (base & sugg & _ & ->).
    cbv zeta. cbn [ScoringSystem.score]. apply clamp_bounds.
Qed.

Lemma calculateVoiceClarity_in_unit
  (voiceQualities : list (option VoiceAnalysis.VoiceQuality)) :
  0 <= ScoringSystem.calculateVoiceClarity voiceQualities <= 1.
Proof.
  unfold ScoringSystem.calculateVoiceClarity.
  destruct (List.length voiceQualities =? 0)%nat.
  - split; vm_compute; discriminate.
  - apply clamp_bounds.
Qed.

Lemma calculateInteractionScore_in_unit (sd : ScoringSystem.SessionData) :
  0 <= ScoringSystem.calculateInteractionScore sd <= 1.
Proof.
  unfold ScoringSystem.calculateInteractionScore. cbv zeta.
  destruct (negb _ || _).
  - split; vm_compute; discriminate.
  - pose proof (wpmScore_range
                  (of_nat (ScoringSystem.wordCount (ScoringSystem.transcript sd))
                   / ScoringSystem.duration sd * 60)) as Hw.
    pose proof (complexity_range
                  (ScoringSystem.interactionComplexity
                     (ScoringSystem.transcript sd))) as Hc.
    lra.
Qed.

Lemma faceEngagement_in_unit (emotions : list (gmap string Q)) :
  0 <= ScoringSystem.calculateFaceEngagement emotions <= 1.
Proof.
  rewrite faceEngagement_mean. apply meanOr_in_unit; [lra |].
  apply Forall_fmap, Forall_forall. intros emotion _.
  apply sessionFrameEngagement_in_unit.
Qed.

Lemma str_or_truthy (x : option string) (d : string) :
  d <> EmptyString -> str_or x d <> EmptyString.
Proof. intros Hd. destruct x as [[| c s] |]; cbn; congruence. Qed.

Section SessionFacts.

Variable generateContent :
  ScoringSystem.GoogleGenerativeAI -> ScoringSystem.SessionData -> result string.
Variable JSON_parse : string -> result ScoringSystem.Reply.

Let analyzeContentWithGemini :=
  ScoringSystem.analyzeContentWithGemini generateContent JSON_parse.
Let contentAnalysis :=
  ScoringSystem.contentAnalysis generateContent JSON_parse.
Let evaluateSession := ScoringSystem.evaluateSession generateContent JSON_parse.

(** What a remote analysis that returns has gone through. *)
Lemma analyzeContentWithGemini_returns
  (this : ScoringSystem.ComprehensiveScoring) (sd : ScoringSystem.SessionData)
  (analysis : ScoringSystem.ContentAnalysis) :
  analyzeContentWithGemini this sd = Ok analysis ->
  exists client text reply,
    ScoringSystem.genAI this = Some client
    /\ generateContent client sd = Ok text
    /\ JSON_parse text = Ok reply
    /\ analysis
       = {| ScoringSystem.score :=
              Math_max 0 (Math_min 1 (num_or (ScoringSystem.replyScore reply) 0.5));
            ScoringSystem.analysisFeedback :=
              str_or (ScoringSystem.replyFeedback reply)
                "Content analysis completed.";
            ScoringSystem.analysisSuggestions :=
              match ScoringSystem.replySuggestions reply with
              | Some l => l
              | None => []
              end |}.
Proof.
  unfold analyzeContentWithGemini, ScoringSystem.analyzeContentWithGemini.
  destruct (ScoringSystem.genAI this) as [client |]; [| discriminate].
  destruct (generateContent client sd) as [text |] eqn:Htext; [| discriminate].
  cbn [bind].
  destruct (JSON_parse text) as [reply |] eqn:Hreply; [| discriminate].
  cbn [bind try_catch]. intros [= <-].
  exists client, text, reply. repeat split; assumption.
Qed.


Lemma contentAnalysis_returns
  (this : ScoringSystem.ComprehensiveScoring) (sd : ScoringSystem.SessionData) :
  exists analysis,
    contentAnalysis this sd = Ok analysis
    /\ 0 <= ScoringSystem.score analysis <= 1.
Proof.
  unfold contentAnalysis, ScoringSystem.contentAnalysis.
  destruct (ScoringSystem.genAI this) as [client |] eqn:Hclient;
    [destruct (truthy (ScoringSystem.transcript sd)) |];
    try (eexists; split;
         [reflexivity | apply analyzeContentLocally_score_in_unit]).
  fold analyzeContentWithGemini.
  destruct (analyzeContentWithGemini this sd) as [analysis | e] eqn:Hremote.
  - exists analysis. split; [reflexivity |].
    destruct (analyzeContentWithGemini_returns this sd analysis Hremote)
      as (c & text & reply & _ & _ & _ & ->).
    cbn [ScoringSystem.score]. apply clamp_bounds.
  - eexists. split; [reflexivity | apply analyzeContentLocally_score_in_unit].
Qed.

(** X10. For a session whose emotion values and sample clarities lie in
    [[0,1]], and a service whose replies have a score that is a JSON number
    or is absent, [evaluateSession] returns five scores in [[0,1]], the
    four components and the overall score, whatever the transcript, the
    duration, the scorer and the key are. *)
Theorem evaluateSession_scores_in_unit
  (this : ScoringSystem.ComprehensiveScoring) (sd : ScoringSystem.SessionData)
  (key : option string) :
  Forall Spec.frameInUnit (ScoringSystem.emotions sd) ->
  Forall (fun quality => 0 <= ScoringSystem.clarityOf quality <= 1)
    (ScoringSystem.voiceQualities sd) ->
  let metrics := (evaluateSession this sd key).1 in
  0 <= ScoringSystem.faceEngagement metrics <= 1
  /\ 0 <= ScoringSystem.voiceClarity metrics <= 1
  /\ 0 <= ScoringSystem.contentQuality metrics <= 1
  /\ 0 <= ScoringSystem.interactionScore metrics <= 1
  /\ 0 <= ScoringSystem.overallScore metrics <= 1.
Proof.
  intros _ _. cbv zeta.
  unfold evaluateSession, ScoringSystem.evaluateSession, ScoringSystem.evaluate.
  cbv zeta.
  destruct (contentAnalysis_returns (ScoringSystem.initialize this key) sd)
    as (analysis & Hok & Hscore).
  unfold contentAnalysis in Hok. rewrite Hok. cbn [bind fst].
  cbn [ScoringSystem.faceEngagement ScoringSystem.voiceClarity
       ScoringSystem.contentQuality ScoringSystem.interactionScore
       ScoringSystem.overallScore].
  pose proof (faceEngagement_in_unit (ScoringSystem.emotions sd)) as Hf.
  pose proof (calculateVoiceClarity_in_unit (ScoringSystem.voiceQualities sd))
    as Hv.
  pose proof (calculateInteractionScore_in_unit sd) as Hi.
  unfold ScoringSystem.calculateOverallScore.
  repeat (split; [lra |]). lra.
Qed.



(** X12. The scorer keeps its first client: once a call has made a client
    from a key that is not empty, a later call keeps that client, whatever
    key it is given. *)
Theorem evaluateSession_keeps_first_client
  (sd1 sd2 : ScoringSystem.SessionData) (k : string) (key2 : option string) :
  k <> EmptyString ->
  let fresh := ScoringSystem.constructor None in
  let after1 := (evaluateSession fresh sd1 (Some k)).2 in
  let after2 := (evaluateSession after1 sd2 key2).2 in
  ScoringSystem.genAI after1 = Some {| ScoringSystem.apiKey := k |}
  /\ ScoringSystem.genAI after2 = Some {| ScoringSystem.apiKey := k |}.
Proof.
  intros Hk. cbv zeta.
  assert (Hsnd : forall this sd key,
            (evaluateSession this sd key).2 = ScoringSystem.initialize this key).
  { intros this sd key.
    unfold evaluateSession, ScoringSystem.evaluateSession.
    destruct (ScoringSystem.evaluate _ _ _ _); reflexivity. }
  rewrite !Hsnd.
  assert (H1 : ScoringSystem.initialize (ScoringSystem.constructor None) (Some k)
               = {| ScoringSystem.genAI := Some {| ScoringSystem.apiKey := k |} |}).
  { destruct k; [contradiction | reflexivity]. }
  rewrite H1. split; [reflexivity |].
  destruct key2 as [k2 |]; reflexivity.
Qed.

End SessionFacts.

Lemma evaluateSession_scores_in_unit_witness :
  let sd :=
    {| ScoringSystem.transcript := Samples.catTranscript;
       ScoringSystem.emotions := [Samples.happyFrame; Samples.zeroFrame];
       ScoringSystem.voiceQualities := [Some Samples.goodSample; None];
       ScoringSystem.topic := "cats";
       ScoringSystem.duration := 60 |} in
  0 <= ScoringSystem.overallScore
         (ScoringSystem.evaluateSession Samples.answering Samples.parsed
            (ScoringSystem.constructor None) sd (Some "k")).1 <= 1.
Proof.
  cbv zeta.
  refine (proj2 (proj2 (proj2 (proj2
            (evaluateSession_scores_in_unit Samples.answering Samples.parsed
               (ScoringSystem.constructor None) _ (Some "k") _ _))))).
  - apply Forall_cons; split; [apply happyFrame_in_unit |].
    apply Forall_cons; split; [apply zeroFrame_in_unit | apply Forall_nil_2].
  - apply Forall_cons; split; [vm_compute; split; discriminate |].
    apply Forall_cons; split; [vm_compute; split; discriminate |].
    apply Forall_nil_2.
Defined.



Lemma evaluateSession_keeps_first_client_witness :
  "k" <> EmptyString
  /\ ScoringSystem.genAI
       (ScoringSystem.evaluateSession Samples.unreachable Samples.notJSON
          (ScoringSystem.evaluateSession Samples.unreachable Samples.notJSON
             (ScoringSystem.constructor None)
             (Samples.session Samples.catTranscript "cats" 60) (Some "k")).2
          (Samples.session EmptyString "cats" 60) (Some "other")).2
     = Some {| ScoringSystem.apiKey := "k" |}.
Proof.
  assert (H : "k" <> EmptyString) by discriminate.
  split; [exact H |].
  apply (proj2 (evaluateSession_keeps_first_client
                  Samples.unreachable Samples.notJSON
                  (Samples.session Samples.catTranscript "cats" 60)
                  (Samples.session EmptyString "cats" 60)
                  "k" (Some "other") H)).
Defined.

(** X13. A scorer without a client that is given no key (or an empty one)
    never consults the service: the metrics are those of the local analysis,
    the same for every service. *)
Theorem evaluateSession_local_only
  (generateContent1 generateContent2 :
     ScoringSystem.GoogleGenerativeAI -> ScoringSystem.SessionData -> result string)
  (JSON_parse1 JSON_parse2 : string -> result ScoringSystem.Reply)
  (this : ScoringSystem.ComprehensiveScoring) (sd : ScoringSystem.SessionData)
  (key : option string) :
  ScoringSystem.genAI this = None ->
  truthy_opt key = false ->
  ScoringSystem.evaluateSession generateContent1 JSON_parse1 this sd key
  = ScoringSystem.evaluateSession generateContent2 JSON_parse2 this sd key
  /\ ScoringSystem.contentQuality
       (ScoringSystem.evaluateSession generateContent1 JSON_parse1 this sd key).1
     = ScoringSystem.score (ScoringSystem.analyzeContentLocally sd)
  /\ (ScoringSystem.evaluateSession generateContent1 JSON_parse1 this sd key).2
     = this.
Proof.
  intros Hnone Hkey.
  assert (Hinit : ScoringSystem.initialize this key = this).
  { unfold ScoringSystem.initialize. rewrite Hnone.
    destruct key as [k |]; [| reflexivity].
    cbn in Hkey. rewrite Hkey. reflexivity. }
  unfold ScoringSystem.evaluateSession, ScoringSystem.evaluate,
    ScoringSystem.contentAnalysis.
  cbv zeta. rewrite Hinit, Hnone. cbn [bind fst snd].
  repeat split.
Qed.

Lemma evaluateSession_local_only_witness :
  ScoringSystem.evaluateSession Samples.answering Samples.parsed
    (ScoringSystem.constructor None)
    (Samples.session Samples.catTranscript "cats" 60) (Some EmptyString)
  = ScoringSystem.evaluateSession Samples.unreachable Samples.notJSON
      (ScoringSystem.constructor None)
      (Samples.session Samples.catTranscript "cats" 60) (Some EmptyString).
Proof.
  apply (proj1 (evaluateSession_local_only
                  Samples.answering Samples.unreachable
                  Samples.parsed Samples.notJSON
                  (ScoringSystem.constructor None)
                  (Samples.session Samples.catTranscript "cats" 60)
                  (Some EmptyString) eq_refl eq_refl)).
Defined.

(** *** The voice quality of a sample *)

Lemma Qabs_square (x : Q) : Qabs x * Qabs x == x * x.
Proof.
  apply Qabs_case; intros _; ring.
Qed.

Lemma Math_max_spec (a b : Q) :
  a <= Math_max a b /\ b <= Math_max a b
  /\ (Math_max a b == a \/ Math_max a b == b).
Proof.
  unfold Math_max. case_Qle a b.
  - split; [lra | split; [lra | right; reflexivity]].
  - split; [lra | split; [lra | left; reflexivity]].
Qed.

Lemma Math_min_spec (a b : Q) :
  Math_min a b <= a /\ Math_min a b <= b
  /\ (Math_min a b == a \/ Math_min a b == b).
Proof.
  unfold Math_min. case_Qle a b.
  - split; [lra | split; [lra | left; reflexivity]].
  - split; [lra | split; [lra | right; reflexivity]].
Qed.

Lemma square_le (a b : Q) : 0 <= a <= b -> a * a <= b * b.
Proof. intros [H0 H1]. nra. Qed.

(** The loop keeps the sum of squares under the count times the square of
    the largest amplitude, and counts no more silent frames than frames. *)
Lemma scan_invariant (l : list Q) (st : VoiceAnalysis.Scan) (k : nat) :
  0 <= VoiceAnalysis.maxAmplitude st ->
  0 <= VoiceAnalysis.sumSquares st
       <= of_nat k * (VoiceAnalysis.maxAmplitude st * VoiceAnalysis.maxAmplitude st) ->
  (VoiceAnalysis.silenceFrames st <= k)%nat ->
  let st' := fold_left VoiceAnalysis.scanSample l st in
  0 <= VoiceAnalysis.maxAmplitude st'
  /\ 0 <= VoiceAnalysis.sumSquares st'
          <= of_nat (k + List.length l)
             * (VoiceAnalysis.maxAmplitude st' * VoiceAnalysis.maxAmplitude st')
  /\ (VoiceAnalysis.silenceFrames st' <= k + List.length l)%nat.
Proof.
  revert st k. induction l as [| x l IH]; intros st k Hmax Hsum Hsil; cbv zeta.
  - cbn [fold_left List.length]. rewrite Nat.add_0_r. auto.
  - cbn [fold_left List.length].
    replace (k + S (List.length l))%nat with (S k + List.length l)%nat by lia.
    apply IH.
    + cbn [VoiceAnalysis.scanSample VoiceAnalysis.maxAmplitude].
      pose proof (Math_max_spec (VoiceAnalysis.maxAmplitude st) (Math_abs x)).
      lra.
    + cbn [VoiceAnalysis.scanSample VoiceAnalysis.maxAmplitude
           VoiceAnalysis.sumSquares].
      destruct (Math_max_spec (VoiceAnalysis.maxAmplitude st) (Math_abs x))
        as (Hge1 & Hge2 & _).
      set (m' := Math_max (VoiceAnalysis.maxAmplitude st) (Math_abs x)) in *.
      pose proof (Qabs_nonneg x) as Habs. unfold Math_abs in *.
      pose proof (square_le (VoiceAnalysis.maxAmplitude st) m'
                    (conj Hmax Hge1)) as Hsq1.
      pose proof (square_le (Qabs x) m' (conj Habs Hge2)) as Hsq2.
      pose proof (Qabs_square x) as Hxx.
      pose proof (of_nat_nonneg k) as Hk.
      rewrite of_nat_succ.
      assert (Hmono : of_nat k * (VoiceAnalysis.maxAmplitude st
                                  * VoiceAnalysis.maxAmplitude st)
                      <= of_nat k * (m' * m')).
      { nra. }
      assert (Hx0 : 0 <= x * x) by (rewrite <- Hxx; nra).
      split; [lra |].
      rewrite <- Hxx. lra.
    + cbn [VoiceAnalysis.scanSample VoiceAnalysis.silenceFrames].
      destruct (ltb _ _); lia.
Qed.

Lemma floorSqrt_spec :
  (forall x, 0 <= Samples.floorSqrt x)
  /\ (forall x, 0 <= x -> Samples.floorSqrt x * Samples.floorSqrt x <= x).
Proof.
  unfold Samples.floorSqrt. split.
  - intros x.
    assert (H : 0 <= inject_Z (Z.sqrt (Qfloor (x * 1000000)))).
    { change 0 with (inject_Z 0). rewrite <- Zle_Qle. apply Z.sqrt_nonneg. }
    apply Qle_shift_div_l; lra.
  - intros x Hx.
    assert (Hfloor : (0 <= Qfloor (x * 1000000))%Z).
    { change 0%Z with (Qfloor (inject_Z 0)). apply Qfloor_resp_le.
      change (inject_Z 0) with 0. lra. }
    destruct (Z.sqrt_spec (Qfloor (x * 1000000)) Hfloor) as [Hle _].
    set (s := Z.sqrt (Qfloor (x * 1000000))) in *.
    assert (Hs : inject_Z s * inject_Z s <= x * 1000000).
    { rewrite <- inject_Z_mult.
      apply Qle_trans with (inject_Z (Qfloor (x * 1000000)));
        [| apply Qfloor_le].
      rewrite <- Zle_Qle. exact Hle. }
    assert (Heq : inject_Z s / 1000 * (inject_Z s / 1000)
                  == inject_Z s * inject_Z s / 1000000) by (field; lra).
    rewrite Heq. apply Qle_shift_div_r; lra.
Qed.

Section MeasureFacts.

Variable Math_sqrt : Q -> Q.
Hypothesis sqrt_nonneg : forall x, 0 <= Math_sqrt x.
Hypothesis sqrt_square_le : forall x, 0 <= x -> Math_sqrt x * Math_sqrt x <= x.

Lemma sqrt_le (x m : Q) : 0 <= x -> 0 <= m -> x <= m * m -> Math_sqrt x <= m.
Proof.
  intros Hx Hm Hxm.
  pose proof (sqrt_nonneg x) as H0. pose proof (sqrt_square_le x Hx) as H1.
  destruct (Qlt_le_dec m (Math_sqrt x)) as [Hlt | Hle]; [| exact Hle].
  exfalso. nra.
Qed.

Lemma mean_square_bounds (l : list Q) :
  let st := fold_left VoiceAnalysis.scanSample l
              {| VoiceAnalysis.sumSquares := 0;
                 VoiceAnalysis.maxAmplitude := 0;
                 VoiceAnalysis.silenceFrames := 0 |} in
  let n := of_nat (List.length l) in
  0 <= VoiceAnalysis.maxAmplitude st
  /\ 0 <= VoiceAnalysis.sumSquares st / n
          <= VoiceAnalysis.maxAmplitude st * VoiceAnalysis.maxAmplitude st
  /\ 0 <= of_nat (VoiceAnalysis.silenceFrames st) / n.
Proof.
  cbv zeta.
  destruct (scan_invariant l
              {| VoiceAnalysis.sumSquares := 0;
                 VoiceAnalysis.maxAmplitude := 0;
                 VoiceAnalysis.silenceFrames := 0 |} 0)
    as (Hmax & [Hsum0 Hsum] & Hsil).
  { cbn. lra. }
  { cbn. split; vm_compute; discriminate. }
  { cbn. lia. }
  cbv zeta in Hmax, Hsum0, Hsum, Hsil. rewrite Nat.add_0_l in Hsum, Hsil.
  set (st := fold_left VoiceAnalysis.scanSample l _) in *.
  pose proof (of_nat_nonneg (VoiceAnalysis.silenceFrames st)) as Hsn.
  split; [exact Hmax |].
  destruct l as [| x l].
  - cbn [List.length]. change (of_nat 0) with 0.
    assert (Hdiv : forall y, y / 0 == 0) by (intros y; unfold Qdiv; cbn; ring).
    rewrite !Hdiv. split; [split; [lra | nra] | lra].
  - assert (Hn : 0 < of_nat (List.length (x :: l)))
      by (apply of_nat_pos; cbn; lia).
    split; [split |].
    + apply Qle_shift_div_l; [exact Hn | lra].
    + apply Qle_shift_div_r; [exact Hn |]. lra.
    + apply Qle_shift_div_l; [exact Hn | lra].
Qed.

(** X14. With a square root that is not negative and whose square does not
    exceed its argument, the record measured on decoded samples (at least
    one) has its clarity, its volume and its confidence in [[0,1]], whatever
    the samples are. *)
Theorem measure_in_unit (channelData : list Q) :
  channelData <> [] ->
  let quality := VoiceAnalysis.measure Math_sqrt channelData in
  0 <= VoiceAnalysis.clarity quality <= 1
  /\ 0 <= VoiceAnalysis.volume quality <= 1
  /\ 0 <= VoiceAnalysis.confidence quality <= 1.
Proof.
  intros _. cbv zeta. unfold VoiceAnalysis.measure. cbv zeta.
  cbn [VoiceAnalysis.clarity VoiceAnalysis.volume VoiceAnalysis.confidence].
  destruct (mean_square_bounds channelData) as (Hmax & [Hms0 Hms] & Hratio).
  cbv zeta in Hmax, Hms0, Hms, Hratio.
  set (st := fold_left VoiceAnalysis.scanSample channelData _) in *.
  set (n := of_nat (List.length channelData)) in *.
  set (rms := Math_sqrt (VoiceAnalysis.sumSquares st / n)).
  assert (Hrms0 : 0 <= rms) by apply sqrt_nonneg.
  assert (Hrms : rms <= VoiceAnalysis.maxAmplitude st)
    by (apply sqrt_le; assumption).
  destruct (Math_min_spec 1 (rms * 20)) as (Hv1 & _ & [Hv | Hv]);
    destruct (Math_min_spec 1 ((VoiceAnalysis.maxAmplitude st - rms) * 10))
      as (Hs1 & _ & [Hs | Hs]);
    destruct (Math_max_spec 0 (1 - of_nat (VoiceAnalysis.silenceFrames st) / n * 2))
      as (Hc0 & _ & [Hc | Hc]);
    repeat split; lra.
Qed.

End MeasureFacts.

Lemma measure_in_unit_witness :
  0 <= VoiceAnalysis.clarity
         (VoiceAnalysis.measure Samples.floorSqrt [0.5; -0.25; 0]) <= 1.
Proof.
  refine (proj1 (measure_in_unit Samples.floorSqrt
                   (proj1 floorSqrt_spec) (proj2 floorSqrt_spec)
                   [0.5; -0.25; 0] _)).
  discriminate.
Defined.

Lemma scoreLabel_cases (clarityScore : Q) :
  (VoiceAnalysis.scoreLabel clarityScore = "Excellent" /\ 0.8 < clarityScore)
  \/ (VoiceAnalysis.scoreLabel clarityScore = "Good"
      /\ 0.6 < clarityScore <= 0.8)
  \/ (VoiceAnalysis.scoreLabel clarityScore = "Fair"
      /\ 0.4 < clarityScore <= 0.6)
  \/ (VoiceAnalysis.scoreLabel clarityScore = "Poor"
      /\ 0.2 < clarityScore <= 0.4)
  \/ (VoiceAnalysis.scoreLabel clarityScore = "Very Poor"
      /\ clarityScore <= 0.2).
Proof.
  unfold VoiceAnalysis.scoreLabel, gtb.
  case_Qle clarityScore 0.8; cbn [negb]; [| left; split; [reflexivity | lra]].
  case_Qle clarityScore 0.6; cbn [negb];
    [| right; left; split; [reflexivity | lra]].
  case_Qle clarityScore 0.4; cbn [negb];
    [| right; right; left; split; [reflexivity | lra]].
  case_Qle clarityScore 0.2; cbn [negb];
    [| right; right; right; left; split; [reflexivity | lra]].
  right; right; right; right. split; [reflexivity | lra].
Qed.

Lemma scoreLabel_coloured (clarityScore : Q) :
  VoiceAnalysis.scoreLabel clarityScore <> "Error"
  /\ VoiceAnalysis.getVoiceQualityColor (VoiceAnalysis.scoreLabel clarityScore)
     <> "text-gray-500".
Proof.
  destruct (scoreLabel_cases clarityScore)
    as [[-> _] | [[-> _] | [[-> _] | [[-> _] | [-> _]]]]];
    split; discriminate.
Qed.

Section ChunkFacts.

Variables Blob ArrayBuffer AudioContext AudioBuffer : Type.
Variable arrayBuffer : Blob -> result ArrayBuffer.
Variable newAudioContext : result AudioContext.
Variable decodeAudioData : AudioContext -> ArrayBuffer -> result AudioBuffer.
Variable getChannelData : AudioBuffer -> nat -> result (list Q).
Variable Math_sqrt : Q -> Q.
Variable size : Blob -> nat.

Let decodeChannel :=
  VoiceAnalysis.decodeChannel arrayBuffer newAudioContext decodeAudioData
    getChannelData.
Let analyzeVoiceQuality :=
  VoiceAnalysis.analyzeVoiceQuality arrayBuffer newAudioContext decodeAudioData
    getChannelData Math_sqrt.
Let isLoudEnough :=
  EduMimic.isLoudEnough arrayBuffer newAudioContext decodeAudioData
    getChannelData Math_sqrt.
Let onstop :=
  EduMimic.onstop arrayBuffer newAudioContext decodeAudioData getChannelData
    Math_sqrt size.

(** X15. The label [Error], and with it the grey colour of the badge, marks
    exactly the samples that could not be decoded: a sample that decodes
    gets one of the five quality labels and one of the five colours. *)
Theorem analyzeVoiceQuality_error_label (blob : Blob) :
  exists quality,
    analyzeVoiceQuality blob = Ok quality
    /\ (VoiceAnalysis.score quality = "Error"
        <-> exists e, decodeChannel blob = Throw e)
    /\ (VoiceAnalysis.getVoiceQualityColor (VoiceAnalysis.score quality)
        = "text-gray-500"
        <-> exists e, decodeChannel blob = Throw e).
Proof.
  destruct (analyzeVoiceQuality_cases _ _ _ _ arrayBuffer newAudioContext
              decodeAudioData getChannelData Math_sqrt blob)
    as [(e & Hfail & Hres) | (channelData & Hok & Hres)].
  - exists VoiceAnalysis.errorSample. split; [exact Hres |].
    split; (split; [intros _; exists e; exact Hfail | intros _; reflexivity]).
  - exists (VoiceAnalysis.measure Math_sqrt channelData).
    split; [exact Hres |].
    unfold VoiceAnalysis.measure. cbv zeta. cbn [VoiceAnalysis.score].
    match goal with
    | |- context [VoiceAnalysis.scoreLabel ?c] =>
        destruct (scoreLabel_coloured c) as [Hlabel Hcolour]
    end.
    fold decodeChannel in Hok.
    split; (split; [intros H; contradiction
                   | intros [e He]; rewrite Hok in He; discriminate]).
Qed.

Lemma isLoudEnough_cases (blob : Blob) (threshold : Q) :
  (exists e, decodeChannel blob = Throw e
             /\ isLoudEnough blob threshold = Ok false)
  \/ (exists channelData,
        decodeChannel blob = Ok channelData
        /\ isLoudEnough blob threshold
           = Ok (match channelData with
                 | [] => false
                 | _ :: _ => gtb (EduMimic.rms Math_sqrt channelData) threshold
                 end)).
Proof.
  unfold isLoudEnough, EduMimic.isLoudEnough. fold decodeChannel.
  destruct (decodeChannel blob) as [channelData | e].
  - right. exists channelData. split; [reflexivity |].
    destruct channelData; reflexivity.
  - left. exists e. split; reflexivity.
Qed.

(** X16. A chunk goes to transcription only when its blob is not empty, it
    decodes to at least one sample, its volume (the root mean square of its
    samples) exceeds 0.01 and its clarity exceeds 0.4; its quality record is
    then the last entry of the history. *)
Theorem onstop_transcribes_only_clear_chunks
  (audioBlob : Blob) (history history' : list VoiceAnalysis.VoiceQuality) :
  onstop audioBlob history = Ok (history', true) ->
  (0 < size audioBlob)%nat
  /\ exists channelData,
       decodeChannel audioBlob = Ok channelData
       /\ channelData <> []
       /\ 0.01 < EduMimic.rms Math_sqrt channelData
       /\ 0.4 < VoiceAnalysis.clarity (VoiceAnalysis.measure Math_sqrt channelData)
       /\ history' = push history (VoiceAnalysis.measure Math_sqrt channelData).
Proof.
  unfold onstop, EduMimic.onstop.
  destruct (0 <? size audioBlob)%nat eqn:Hsize; [| discriminate].
  intros H. split; [apply Nat.ltb_lt; exact Hsize |].
  fold analyzeVoiceQuality isLoudEnough in H.
  destruct (isLoudEnough_cases audioBlob 0.01)
    as [(e & Hfail & Hloud) | (channelData & Hok & Hloud)].
  - destruct (analyzeVoiceQuality_cases _ _ _ _ arrayBuffer newAudioContext
                decodeAudioData getChannelData Math_sqrt audioBlob)
      as [(e' & _ & Hres) | (channelData & Hok & _)].
    + fold analyzeVoiceQuality in Hres. rewrite Hres in H. cbn [bind] in H.
      rewrite Hloud in H. cbn [bind andb] in H. discriminate.
    + fold decodeChannel in Hok. rewrite Hok in Hfail. discriminate.
  - destruct (analyzeVoiceQuality_cases _ _ _ _ arrayBuffer newAudioContext
                decodeAudioData getChannelData Math_sqrt audioBlob)
      as [(e' & Hfail & _) | (channelData' & Hok' & Hres)].
    + fold decodeChannel in Hfail. rewrite Hok in Hfail. discriminate.
    + fold decodeChannel in Hok'. rewrite Hok in Hok'. injection Hok' as <-.
      fold analyzeVoiceQuality in Hres. rewrite Hres in H. cbn [bind] in H.
      rewrite Hloud in H. cbn [bind] in H.
      injection H as Hhist Hgate.
      apply andb_prop in Hgate as [Hgate HveryPoor].
      apply andb_prop in Hgate as [Hgt Hpoor].
      exists channelData. split; [exact Hok |].
      assert (Hsamples : channelData <> [] /\
                gtb (EduMimic.rms Math_sqrt channelData) 0.01 = true).
      { destruct channelData; [discriminate Hgt |].
        split; [discriminate | exact Hgt]. }
      clear Hgt. destruct Hsamples as [Hsamples Hgt].
      split; [exact Hsamples |]. split; [| split].
      * unfold gtb in Hgt.
        destruct (Qle_bool (EduMimic.rms Math_sqrt channelData) 0.01) eqn:Hle;
          [discriminate | apply Qle_bool_false; exact Hle].
      * revert Hpoor HveryPoor. unfold VoiceAnalysis.measure. cbv zeta.
        cbn [VoiceAnalysis.score VoiceAnalysis.clarity].
        match goal with
        | |- context [VoiceAnalysis.scoreLabel ?c] =>
            destruct (scoreLabel_cases c)
              as [[-> Hc] | [[-> Hc] | [[-> Hc] | [[-> Hc] | [-> Hc]]]]]
        end; intros Hpoor HveryPoor; try discriminate; lra.
      * symmetry. exact Hhist.
Qed.

(** X17. A chunk whose blob is not empty and cannot be decoded is recorded
    in the history as the [Error] sample and is not transcribed; an empty
    blob leaves the history as it is. *)
Theorem onstop_undecodable_chunk
  (audioBlob : Blob) (history : list VoiceAnalysis.VoiceQuality) :
  ((0 < size audioBlob)%nat ->
   (exists e, decodeChannel audioBlob = Throw e) ->
   onstop audioBlob history = Ok (push history VoiceAnalysis.errorSample, false))
  /\ (size audioBlob = 0%nat -> onstop audioBlob history = Ok (history, false)).
Proof.
  unfold onstop, EduMimic.onstop. split.
  - intros Hsize [e Hfail].
    apply Nat.ltb_lt in Hsize. rewrite Hsize.
    fold analyzeVoiceQuality isLoudEnough.
    destruct (analyzeVoiceQuality_cases _ _ _ _ arrayBuffer newAudioContext
                decodeAudioData getChannelData Math_sqrt audioBlob)
      as [(e' & _ & Hres) | (channelData & Hok & _)];
      [| fold decodeChannel in Hok; rewrite Hok in Hfail; discriminate].
    destruct (isLoudEnough_cases audioBlob 0.01)
      as [(e'' & _ & Hloud) | (channelData & Hok & _)];
      [| rewrite Hok in Hfail; discriminate].
    fold analyzeVoiceQuality in Hres. rewrite Hres. cbn [bind].
    rewrite Hloud. reflexivity.
  - intros ->. reflexivity.
Qed.

End ChunkFacts.

Lemma onstop_transcribes_only_clear_chunks_witness :
  exists history',
    EduMimic.onstop Samples.readSamples Samples.audioContext
      Samples.decodeSamples Samples.channelOf Samples.floorSqrt
      (fun blob => List.length blob) [0.5; -0.5] [] = Ok (history', true)
    /\ 0.4 < VoiceAnalysis.clarity
               (VoiceAnalysis.measure Samples.floorSqrt [0.5; -0.5]).
Proof.
  eexists. split; [vm_compute; reflexivity |].
  destruct (onstop_transcribes_only_clear_chunks _ _ _ _
              Samples.readSamples Samples.audioContext Samples.decodeSamples
              Samples.channelOf Samples.floorSqrt (fun blob => List.length blob)
              [0.5; -0.5] [] _ eq_refl)
    as (_ & channelData & Hok & _ & _ & Hclarity & _).
  injection Hok as <-. exact Hclarity.
Defined.

Lemma onstop_undecodable_chunk_witness :
  EduMimic.onstop Samples.readBlob Samples.audioContext Samples.rejectAudio
    Samples.channelOf Samples.floorSqrt String.length "not audio"
    [Samples.goodSample]
  = Ok ([Samples.goodSample; VoiceAnalysis.errorSample], false).
Proof.
  apply (proj1 (onstop_undecodable_chunk _ _ _ _
                  Samples.readBlob Samples.audioContext Samples.rejectAudio
                  Samples.channelOf Samples.floorSqrt String.length
                  "not audio" [Samples.goodSample])).
  - vm_compute. lia.
  - exists "EncodingError". reflexivity.
Defined.

(** *** Silence *)

Lemma scan_zeros (l : list Q) (st : VoiceAnalysis.Scan) :
  Forall (fun x => x == 0) l ->
  VoiceAnalysis.sumSquares st == 0 ->
  VoiceAnalysis.maxAmplitude st == 0 ->
  let st' := fold_left VoiceAnalysis.scanSample l st in
  VoiceAnalysis.sumSquares st' == 0
  /\ VoiceAnalysis.maxAmplitude st' == 0
  /\ VoiceAnalysis.silenceFrames st'
     = (VoiceAnalysis.silenceFrames st + List.length l)%nat.
Proof.
  intros Hzero. revert st.
  induction Hzero as [| x l Hx _ IH]; intros st Hsum Hmax; cbv zeta.
  - cbn. auto.
  - cbn [fold_left List.length].
    assert (Habs : Math_abs x == 0).
    { unfold Math_abs. rewrite Hx. reflexivity. }
    destruct (IH (VoiceAnalysis.scanSample st x)) as (H1 & H2 & H3).
    + cbn [VoiceAnalysis.scanSample VoiceAnalysis.sumSquares]. rewrite Hx. lra.
    + cbn [VoiceAnalysis.scanSample VoiceAnalysis.maxAmplitude].
      destruct (Math_max_spec (VoiceAnalysis.maxAmplitude st) (Math_abs x))
        as (_ & _ & [H | H]); lra.
    + split; [exact H1 | split; [exact H2 |]].
      rewrite H3. cbn [VoiceAnalysis.scanSample VoiceAnalysis.silenceFrames].
      unfold ltb. case_Qle 0.001 (Math_abs x); cbn [negb]; [lra | lia].
Qed.

Lemma squares_zeros (l : list Q) (acc : Q) :
  Forall (fun x => x == 0) l -> acc == 0 ->
  fold_left (fun sum x => sum + x * x) l acc == 0.
Proof.
  intros Hzero. revert acc.
  induction Hzero as [| x l Hx _ IH]; intros acc Hacc; cbn [fold_left].
  - exact Hacc.
  - apply IH. rewrite Hx. lra.
Qed.

Section SilenceFacts.

Variable Math_sqrt : Q -> Q.
Hypothesis sqrt_nonneg : forall x, 0 <= Math_sqrt x.
Hypothesis sqrt_square_le : forall x, 0 <= x -> Math_sqrt x * Math_sqrt x <= x.

Lemma sqrt_of_zero (x : Q) : x == 0 -> Math_sqrt x == 0.
Proof.
  intros Hx. pose proof (sqrt_nonneg x) as H0.
  assert (Hx0 : 0 <= x) by lra.
  pose proof (sqrt_square_le x Hx0) as H1.
  destruct (Qlt_le_dec 0 (Math_sqrt x)) as [Hpos | Hle]; [| lra].
  exfalso. nra.
Qed.

(** X18. Digital silence is rated at the bottom: for samples that are all 0
    (at least one), the volume and the clarity are 0 and the label is
    [Very Poor]; the volume that [isLoudEnough] computes is 0 as well, so
    the chunk is not loud enough for any threshold that is not negative. *)
Theorem measure_silence (channelData : list Q) (threshold : Q) :
  channelData <> [] ->
  Forall (fun x => x == 0) channelData ->
  0 <= threshold ->
  let quality := VoiceAnalysis.measure Math_sqrt channelData in
  VoiceAnalysis.clarity quality == 0
  /\ VoiceAnalysis.volume quality == 0
  /\ VoiceAnalysis.score quality = "Very Poor"
  /\ gtb (EduMimic.rms Math_sqrt channelData) threshold = false.
Proof.
  intros Hne Hzero Hthreshold. cbv zeta.
  destruct (scan_zeros channelData
              {| VoiceAnalysis.sumSquares := 0;
                 VoiceAnalysis.maxAmplitude := 0;
                 VoiceAnalysis.silenceFrames := 0 |} Hzero)
    as (Hsum & Hmax & Hsil); [reflexivity | reflexivity |].
  cbv zeta in Hsum, Hmax, Hsil. cbn [VoiceAnalysis.silenceFrames] in Hsil.
  rewrite Nat.add_0_l in Hsil.
  assert (Hn : 0 < of_nat (List.length channelData)).
  { apply of_nat_pos. destruct channelData; [contradiction | cbn; lia]. }
  assert (Hclarity :
            VoiceAnalysis.clarity (VoiceAnalysis.measure Math_sqrt channelData) == 0
            /\ VoiceAnalysis.volume (VoiceAnalysis.measure Math_sqrt channelData)
               == 0).
  { unfold VoiceAnalysis.measure. cbv zeta.
    cbn [VoiceAnalysis.clarity VoiceAnalysis.volume].
    set (st := fold_left VoiceAnalysis.scanSample channelData _) in *.
    set (n := of_nat (List.length channelData)) in *.
    assert (Hrms : Math_sqrt (VoiceAnalysis.sumSquares st / n) == 0).
    { apply sqrt_of_zero. rewrite Hsum. field. lra. }
    assert (Hratio : of_nat (VoiceAnalysis.silenceFrames st) / n == 1).
    { rewrite Hsil. fold n. field. lra. }
    set (rms := Math_sqrt (VoiceAnalysis.sumSquares st / n)) in *.
    destruct (Math_min_spec 1 (rms * 20)) as (Hv1 & Hv2 & [Hv | Hv]);
      destruct (Math_min_spec 1 ((VoiceAnalysis.maxAmplitude st - rms) * 10))
        as (Hs1 & Hs2 & [Hs | Hs]);
      destruct (Math_max_spec 0
                  (1 - of_nat (VoiceAnalysis.silenceFrames st) / n * 2))
        as (Hc1 & Hc2 & [Hc | Hc]);
      split; lra. }
  destruct Hclarity as [Hclarity Hvolume].
  split; [exact Hclarity |]. split; [exact Hvolume |]. split.
  - change (VoiceAnalysis.score (VoiceAnalysis.measure Math_sqrt channelData))
      with (VoiceAnalysis.scoreLabel
              (VoiceAnalysis.clarity
                 (VoiceAnalysis.measure Math_sqrt channelData))).
    destruct (scoreLabel_cases
                (VoiceAnalysis.clarity
                   (VoiceAnalysis.measure Math_sqrt channelData)))
      as [[_ Hc] | [[_ Hc] | [[_ Hc] | [[_ Hc] | [Hlabel _]]]]];
      first [exact Hlabel | exfalso; lra].
  - unfold gtb, EduMimic.rms. cbv zeta.
    assert (Hrms : Math_sqrt
                     (fold_left (fun sum x => sum + x * x) channelData 0
                      / of_nat (List.length channelData)) == 0).
    { apply sqrt_of_zero.
      rewrite (squares_zeros channelData 0 Hzero) by reflexivity.
      field. lra. }
    case_Qle (Math_sqrt
                (fold_left (fun sum x => sum + x * x) channelData 0
                 / of_nat (List.length channelData))) threshold;
      [reflexivity | exfalso; lra].
Qed.

End SilenceFacts.

Lemma measure_silence_witness :
  VoiceAnalysis.score (VoiceAnalysis.measure Samples.floorSqrt [0; 0; 0])
  = "Very Poor".
Proof.
  assert (H1 : [0; 0; 0] <> ([] : list Q)) by discriminate.
  assert (H2 : Forall (fun x => x == 0) [0; 0; 0])
    by (repeat constructor).
  assert (H3 : 0 <= 0.01) by (vm_compute; discriminate).
  apply (measure_silence Samples.floorSqrt
           (proj1 floorSqrt_spec) (proj2 floorSqrt_spec) [0; 0; 0] 0.01 H1 H2 H3).
Defined.

(** *** Counting the words of a transcript *)

Lemma append_nil_r (s : string) : String.append s EmptyString = s.
Proof.
  induction s as [| c s IH]; [reflexivity |].
  change (String c (String.append s EmptyString) = String c s).
  rewrite IH. reflexivity.
Qed.

Lemma append_assoc (s t u : string) :
  String.append (String.append s t) u = String.append s (String.append t u).
Proof.
  induction s as [| c s IH]; [reflexivity |].
  change (String c (String.append (String.append s t) u)
          = String c (String.append s (String.append t u))).
  rewrite IH. reflexivity.
Qed.

Lemma splitRuns_spaceFree (w rest cur : string) :
  Spec.spaceFree w = true ->
  splitRuns isWhiteSpace (String.append w rest) cur false
  = splitRuns isWhiteSpace rest (String.append cur w) false.
Proof.
  revert cur. induction w as [| c w IH]; intros cur Hw.
  - cbn. rewrite append_nil_r. reflexivity.
  - cbn in Hw. apply andb_prop in Hw as [Hc Hw].
    apply negb_true_iff in Hc.
    change (String.append (String c w) rest)
      with (String c (String.append w rest)).
    cbn [splitRuns]. rewrite Hc.
    rewrite IH by assumption. rewrite append_assoc. reflexivity.
Qed.

Lemma splitRuns_word (w rest cur : string) (inRun : bool) :
  Spec.isWord w = true ->
  splitRuns isWhiteSpace (String.append w rest) cur inRun
  = splitRuns isWhiteSpace rest (String.append cur w) false.
Proof.
  unfold Spec.isWord. intros H. apply andb_prop in H as [Hne Hw].
  destruct w as [| c w]; [discriminate |].
  rewrite <- splitRuns_spaceFree by assumption.
  cbn in Hw. apply andb_prop in Hw as [Hc _]. apply negb_true_iff in Hc.
  change (String.append (String c w) rest)
    with (String c (String.append w rest)).
  cbn [splitRuns]. rewrite !Hc. reflexivity.
Qed.

Lemma splitRuns_join (words : list string) (inRun : bool) :
  words <> [] -> Forall (fun w => Spec.isWord w = true) words ->
  splitRuns isWhiteSpace (join " " words) EmptyString inRun = words.
Proof.
  intros Hne Hwords. revert inRun.
  induction Hwords as [| w words Hw Hrest IH]; [contradiction |].
  intros inRun. destruct words as [| w2 words].
  - cbn [join]. rewrite <- (append_nil_r w) at 1.
    rewrite splitRuns_word by assumption. reflexivity.
  - change (join " " (w :: w2 :: words))
      with (String.append w (String " " (join " " (w2 :: words)))).
    rewrite splitRuns_word by assumption.
    cbn [splitRuns].
    change (isWhiteSpace " ") with true. cbv iota.
    change (String.append EmptyString w) with w.
    rewrite IH by discriminate. reflexivity.
Qed.

(** X19. When the pieces of the transcript are words (not empty, without
    white space), splitting the transcript that [getCurrentSessionData]
    joins from them gives the pieces back; so the word count of the scorer
    and the Words Spoken of the panel are the number of pieces. *)
Theorem getCurrentSessionData_word_count
  (transcript : list string) (emotionHistory : list (gmap string Q))
  (voiceQualityHistory : list VoiceAnalysis.VoiceQuality)
  (currentTopic : string) (now start : Q) :
  transcript <> [] ->
  Forall (fun w => Spec.isWord w = true) transcript ->
  let sessionData :=
    EduMimic.getCurrentSessionData transcript emotionHistory
      voiceQualityHistory currentTopic now start in
  split isWhiteSpace (ScoringSystem.transcript sessionData) = transcript
  /\ ScoringSystem.wordCount (ScoringSystem.transcript sessionData)
     = List.length transcript
  /\ EvaluationPanel.wordsSpoken sessionData = List.length transcript.
Proof.
  intros Hne Hwords. cbv zeta.
  unfold EvaluationPanel.wordsSpoken, ScoringSystem.wordCount,
    EduMimic.getCurrentSessionData.
  cbn [ScoringSystem.transcript]. unfold split.
  rewrite splitRuns_join by assumption. repeat split.
Qed.

Lemma getCurrentSessionData_word_count_witness :
  let transcript := ["The"; "cat"; "sat."] in
  transcript <> []
  /\ Forall (fun w => Spec.isWord w = true) transcript
  /\ ScoringSystem.wordCount
       (ScoringSystem.transcript
          (EduMimic.getCurrentSessionData transcript [] [] "cats" 61000 1000))
     = 3%nat.
Proof.
  cbv zeta.
  assert (H1 : ["The"; "cat"; "sat."] <> ([] : list string)) by discriminate.
  assert (H2 : Forall (fun w => Spec.isWord w = true) ["The"; "cat"; "sat."])
    by (repeat constructor).
  split; [exact H1 |]. split; [exact H2 |].
  apply (getCurrentSessionData_word_count
           ["The"; "cat"; "sat."] [] [] "cats" 61000 1000 H1 H2).
Defined.

(** X20. The Words Spoken of the panel is never 0: the split leaves at
    least one piece, and exactly one for the empty transcript, so a session
    without speech shows 1. *)
Theorem wordsSpoken_at_least_one (sessionData : ScoringSystem.SessionData) :
  (1 <= EvaluationPanel.wordsSpoken sessionData)%nat
  /\ (ScoringSystem.transcript sessionData = EmptyString ->
      EvaluationPanel.wordsSpoken sessionData = 1%nat).
Proof.
  unfold EvaluationPanel.wordsSpoken, split. split.
  - apply splitRuns_length.
  - intros ->. reflexivity.
Qed.

Lemma wordsSpoken_at_least_one_witness :
  EvaluationPanel.wordsSpoken (Samples.session EmptyString "cats" 0) = 1%nat.
Proof.
  apply (proj2 (wordsSpoken_at_least_one
                  (Samples.session EmptyString "cats" 0))).
  reflexivity.
Defined.

Lemma space_not_spaceFree (c : ascii) :
  isWhiteSpace c = false -> Ascii.eqb c " " = false.
Proof.
  intros H. destruct (Ascii.eqb_spec c " ") as [-> | _]; [| reflexivity].
  discriminate H.
Qed.

Lemma splitAt_spaceFree (w rest cur : string) :
  Spec.spaceFree w = true ->
  splitAt " " (String.append w rest) cur
  = splitAt " " rest (String.append cur w).
Proof.
  revert cur. induction w as [| c w IH]; intros cur Hw.
  - cbn. rewrite append_nil_r. reflexivity.
  - cbn in Hw. apply andb_prop in Hw as [Hc Hw].
    apply negb_true_iff, space_not_spaceFree in Hc.
    change (String.append (String c w) rest)
      with (String c (String.append w rest)).
    cbn [splitAt]. rewrite Hc.
    rewrite IH by assumption. rewrite append_assoc. reflexivity.
Qed.

Lemma splitAt_join (words : list string) :
  Forall (fun w => Spec.isWord w = true) words ->
  splitAt " " (join " " words) EmptyString
  = match words with [] => [EmptyString] | _ :: _ => words end.
Proof.
  induction 1 as [| w words Hw Hrest IH]; [reflexivity |].
  apply andb_prop in Hw as [_ Hw].
  destruct words as [| w2 words].
  - cbn [join]. rewrite <- (append_nil_r w) at 1.
    rewrite splitAt_spaceFree by assumption. reflexivity.
  - change (join " " (w :: w2 :: words))
      with (String.append w (String " " (join " " (w2 :: words)))).
    rewrite splitAt_spaceFree by assumption.
    cbn [splitAt]. change (Ascii.eqb " " " ") with true. cbv iota.
    change (String.append EmptyString w) with w.
    rewrite IH. reflexivity.
Qed.

Lemma spaceFree_forallb (s : string) :
  Spec.spaceFree s
  = forallb (fun c => negb (isWhiteSpace c)) (list_ascii_of_string s).
Proof.
  induction s as [| c s IH]; cbn; [reflexivity | rewrite IH; reflexivity].
Qed.

Lemma spaceFree_reverse (s : string) :
  Spec.spaceFree (reverse s) = Spec.spaceFree s.
Proof.
  unfold reverse.
  rewrite !spaceFree_forallb, list_ascii_of_string_of_list_ascii.
  apply eq_true_iff_eq. rewrite !forallb_forall.
  split; intros H c Hc; apply H; [apply in_rev in Hc | apply in_rev]; exact Hc.
Qed.

Lemma reverse_involutive (s : string) : reverse (reverse s) = s.
Proof.
  unfold reverse.
  rewrite list_ascii_of_string_of_list_ascii, rev_involutive.
  apply string_of_list_ascii_of_string.
Qed.

Lemma trimStart_spaceFree (s : string) :
  Spec.spaceFree s = true -> trimStart s = s.
Proof.
  destruct s as [| c s]; [reflexivity |]. cbn.
  intros H. apply andb_prop in H as [Hc _].
  apply negb_true_iff in Hc. rewrite Hc. reflexivity.
Qed.

Lemma trim_spaceFree (s : string) : Spec.spaceFree s = true -> trim s = s.
Proof.
  intros H. unfold trim, trimEnd.
  rewrite (trimStart_spaceFree s H).
  rewrite trimStart_spaceFree by (rewrite spaceFree_reverse; exact H).
  apply reverse_involutive.
Qed.

(** X21. The word counter of the transcript panel counts the pieces of a
    transcript made of words: it is their number, and 0 for the empty
    transcript. *)
Theorem totalWords_of_words (transcript : list string) :
  Forall (fun w => Spec.isWord w = true) transcript ->
  TranscriptPanel.totalWords transcript = List.length transcript.
Proof.
  intros Hwords. unfold TranscriptPanel.totalWords, splitOn.
  rewrite splitAt_join by assumption.
  destruct transcript as [| w words]; [reflexivity |].
  rewrite filter_all; [reflexivity |].
  eapply Forall_impl; [exact Hwords |].
  cbn beta. intros piece Hpiece.
  apply andb_prop in Hpiece as [Hne Hfree].
  rewrite trim_spaceFree by assumption. exact Hne.
Qed.

Lemma totalWords_of_words_witness :
  Forall (fun w => Spec.isWord w = true) ["The"; "cat"; "sat."]
  /\ TranscriptPanel.totalWords ["The"; "cat"; "sat."] = 3%nat.
Proof.
  assert (H : Forall (fun w => Spec.isWord w = true) ["The"; "cat"; "sat."])
    by (repeat constructor).
  split; [exact H |].
  apply (totalWords_of_words ["The"; "cat"; "sat."] H).
Defined.

(** *** The dominant emotion *)

Lemma getEntry_In (object : entries) (key : string) (v : Q) :
  NoDup object.*1 -> In (key, v) object -> getEntry object key = Some v.
Proof.
  induction object as [| [k' v'] rest IH]; intros Hnodup Hin; [contradiction |].
  cbn [fmap list_fmap fst] in Hnodup. apply NoDup_cons in Hnodup as [Hfresh Hnodup].
  cbn [getEntry]. destruct (String.eqb_spec k' key) as [-> | Hneq].
  - destruct Hin as [[= ->] | Hin]; [reflexivity |].
    exfalso. apply Hfresh. apply list_elem_of_In.
    apply (in_map fst) in Hin. exact Hin.
  - destruct Hin as [[= -> _] | Hin]; [contradiction |].
    apply IH; assumption.
Qed.

Lemma dominant_fold (object rest : entries) (a : string * Q) :
  NoDup object.*1 ->
  In a object -> (forall b, In b rest -> In b object) ->
  let r := fold_left (FaceAnalysis.dominantStep object) rest a in
  In r object /\ a.2 <= r.2 /\ (forall b, In b rest -> b.2 <= r.2).
Proof.
  intros Hnodup. revert a.
  induction rest as [| b rest IH]; intros a Ha Hrest; cbv zeta.
  - cbn. split; [exact Ha |]. split; [lra | contradiction].
  - cbn [fold_left].
    assert (Hb : In b object) by (apply Hrest; left; reflexivity).
    assert (Hstep : FaceAnalysis.dominantStep object a b
                    = if gtb a.2 b.2 then a else b).
    { unfold FaceAnalysis.dominantStep.
      destruct a as [ka va], b as [kb vb]. cbn [fst snd].
      rewrite (getEntry_In object ka va), (getEntry_In object kb vb)
        by assumption.
      reflexivity. }
    rewrite Hstep.
    destruct (IH (if gtb a.2 b.2 then a else b)) as (Hin & Hge & Hall).
    + destruct (gtb a.2 b.2); assumption.
    + intros c Hc. apply Hrest. right. exact Hc.
    + unfold gtb in *. revert Hin Hge Hall.
      case_Qle a.2 b.2; cbn [negb]; intros Hin Hge Hall.
      * split; [exact Hin |]. split; [lra |].
        intros c [<- | Hc]; [exact Hge | apply Hall; exact Hc].
      * split; [exact Hin |]. split; [exact Hge |].
        intros c [<- | Hc]; [lra | apply Hall; exact Hc].
Qed.

(** X22. On an object with keys, the dominant emotion is a key of the
    object whose value is the largest: no emotion has a greater value.
    Without keys, and in the panel without an object, it is [neutral]. *)
Theorem getDominantEmotion_is_maximal (currentEmotions : entries) :
  NoDup currentEmotions.*1 ->
  currentEmotions <> [] ->
  (exists v,
     In (FaceAnalysis.getDominantEmotion currentEmotions, v) currentEmotions
     /\ forall key v', In (key, v') currentEmotions -> v' <= v)
  /\ EvaluationPanel.getDominantEmotion (Some currentEmotions)
     = FaceAnalysis.getDominantEmotion currentEmotions
  /\ FaceAnalysis.getDominantEmotion [] = "neutral"
  /\ EvaluationPanel.getDominantEmotion None = "neutral".
Proof.
  intros Hnodup Hne.
  split; [| repeat split].
  destruct currentEmotions as [| first rest]; [contradiction |].
  unfold FaceAnalysis.getDominantEmotion.
  destruct (dominant_fold (first :: rest) rest first Hnodup)
    as (Hin & Hfirst & Hall).
  { left. reflexivity. }
  { intros b Hb. right. exact Hb. }
  cbv zeta in Hin, Hfirst, Hall.
  destruct (fold_left (FaceAnalysis.dominantStep (first :: rest)) rest first)
    as [k v] eqn:Hfold.
  exists v. cbn [fst snd] in *. split; [exact Hin |].
  intros key v' [-> | Hin']; [exact Hfirst |].
  apply (Hall (key, v')). exact Hin'.
Qed.

Lemma getDominantEmotion_is_maximal_witness :
  let frame :=
    [("neutral", 0.2); ("happy", 0.7); ("sad", 0); ("angry", 0);
     ("fearful", 0); ("disgusted", 0); ("surprised", 0.1)] in
  NoDup frame.*1 /\ frame <> []
  /\ exists v, In (FaceAnalysis.getDominantEmotion frame, v) frame.
Proof.
  cbv zeta.
  assert (H1 : NoDup [("neutral", 0.2); ("happy", 0.7); ("sad", 0); ("angry", 0);
                      ("fearful", 0); ("disgusted", 0); ("surprised", 0.1)].*1).
  { apply (NoDup_ListNoDup _). apply (NoDup_count_occ' string_dec). 
    intros x Hx. cbn in Hx.
    repeat (destruct Hx as [<- | Hx]; [reflexivity |]). contradiction. }
  assert (H2 : [("neutral", 0.2); ("happy", 0.7); ("sad", 0); ("angry", 0);
                ("fearful", 0); ("disgusted", 0); ("surprised", 0.1)]
               <> ([] : entries)) by discriminate.
  split; [exact H1 |]. split; [exact H2 |].
  destruct (proj1 (getDominantEmotion_is_maximal _ H1 H2)) as (v & Hin & _).
  exists v. exact Hin.
Defined.

(** *** Colours and labels of the panel *)

Ltac case_geb :=
  unfold geb;
  repeat match goal with
         | |- context [Qle_bool ?a ?b] => case_Qle a b
         end.

(** X23. The colour and the label the panel gives to a score agree: green
    goes with [Excellent] or [Very Good], blue with [Good] or [Fair], yellow
    with [Needs Improvement] and red with [Poor]. *)
Theorem getScoreColor_matches_getScoreLabel (score : Q) :
  let colour := EvaluationPanel.getScoreColor score in
  let label := EvaluationPanel.getScoreLabel score in
  (colour = "text-green-500" /\ 0.8 <= score
   /\ (label = "Excellent" \/ label = "Very Good"))
  \/ (colour = "text-blue-500" /\ 0.6 <= score < 0.8
      /\ (label = "Good" \/ label = "Fair"))
  \/ (colour = "text-yellow-500" /\ 0.4 <= score < 0.6
      /\ label = "Needs Improvement")
  \/ (colour = "text-red-500" /\ score < 0.4 /\ label = "Poor").
Proof.
  cbv zeta. unfold EvaluationPanel.getScoreColor, EvaluationPanel.getScoreLabel.
  case_geb; try (exfalso; lra).
  all: first
    [ left; split; [reflexivity | split; [lra | auto]]
    | right; left; split; [reflexivity | split; [lra | auto]]
    | right; right; left; split; [reflexivity | split; [lra | reflexivity]]
    | right; right; right; split; [reflexivity | split; [lra | reflexivity]] ].
Qed.

(** *** The scores of the feedback dialog *)

Lemma Math_round_between (x : Q) (a b : Z) :
  inject_Z a <= x <= inject_Z b ->
  inject_Z a <= Math_round x <= inject_Z b.
Proof.
  intros [Ha Hb]. unfold Math_round. split.
  - rewrite <- Zle_Qle. rewrite <- (Qfloor_Z a). apply Qfloor_resp_le. lra.
  - rewrite <- Zle_Qle. pose proof (Qfloor_le (x + 0.5)) as Hfloor.
    assert (Hlt : inject_Z (Qfloor (x + 0.5)) < inject_Z (b + 1)).
    { rewrite inject_Z_plus. change (inject_Z 1) with 1. lra. }
    rewrite <- Zlt_Qlt in Hlt. lia.
Qed.

Lemma clamp15 (v : Q) :
  v == 3 \/ v == 4 \/ v == 5 -> Math_min 5 (Math_max 1 v) == v.
Proof.
  intros H. unfold Math_min, Math_max.
  case_Qle 1 v; [case_Qle 5 v | case_Qle 5 1]; lra.
Qed.

Lemma three_four_five (c : bool) (d : bool) :
  let v := if c then 5 else if d then 4 else 3 in
  Math_min 5 (Math_max 1 v) == v /\ (v == 3 \/ v == 4 \/ v == 5).
Proof.
  cbv zeta. destruct c, d; split;
    first [apply clamp15 | idtac]; auto using Qeq_refl.
  all: try (right; right; reflexivity); try (right; left; reflexivity);
    try (left; reflexivity).
Qed.

Lemma Math_round_ge (x : Q) (a : Z) : inject_Z a <= x -> inject_Z a <= Math_round x.
Proof.
  intros Ha. unfold Math_round. rewrite <- Zle_Qle.
  rewrite <- (Qfloor_Z a). apply Qfloor_resp_le. lra.
Qed.

Lemma Math_round_le (x : Q) (b : Z) : x <= inject_Z b -> Math_round x <= inject_Z b.
Proof.
  intros Hb. unfold Math_round. rewrite <- Zle_Qle.
  pose proof (Qfloor_le (x + 0.5)) as Hfloor.
  assert (Hlt : inject_Z (Qfloor (x + 0.5)) < inject_Z (b + 1)).
  { rewrite inject_Z_plus. change (inject_Z 1) with 1. lra. }
  rewrite <- Zlt_Qlt in Hlt. lia.
Qed.

Lemma push_not_nil {A : Type} (l : list A) (x : A) : push l x <> [].
Proof. unfold push. destruct l; discriminate. Qed.

(** The fields of [calculateScores]: the pace behind the clarity, and the
    three component scores, each 3, 4 or 5. *)
Lemma calculateScores_fields (session : FeedbackModal.TeachingSession) :
  let scores := FeedbackModal.calculateScores session in
  exists wpm : Q,
    FeedbackModal.wordsPerMinute scores = Math_round wpm
    /\ ((FeedbackModal.clarity scores == 5 /\ 100 < wpm < 180)
        \/ (FeedbackModal.clarity scores == 4 /\ 80 < wpm < 220)
        \/ (FeedbackModal.clarity scores == 3 /\ (wpm <= 80 \/ 220 <= wpm)))
    /\ (FeedbackModal.delivery scores == 3 \/ FeedbackModal.delivery scores == 4
        \/ FeedbackModal.delivery scores == 5)
    /\ (FeedbackModal.bodyLanguage scores == 3
        \/ FeedbackModal.bodyLanguage scores == 4
        \/ FeedbackModal.bodyLanguage scores == 5)
    /\ FeedbackModal.overall scores
       == Math_round
            ((FeedbackModal.clarity scores * 0.4
              + FeedbackModal.delivery scores * 0.3
              + FeedbackModal.bodyLanguage scores * 0.3) * 10) / 10.
Proof.
  cbv zeta. unfold FeedbackModal.calculateScores. cbv zeta.
  cbn [FeedbackModal.wordsPerMinute FeedbackModal.clarity FeedbackModal.delivery
       FeedbackModal.bodyLanguage FeedbackModal.overall].
  match goal with
  | |- context [Math_round (if ?c then ?a else 0)] =>
      set (wpm := if c then a else 0)
  end.
  exists wpm. split; [reflexivity |].
  split; [| split; [| split; [| reflexivity]]].
  - unfold gtb, ltb.
    case_Qle wpm 100; case_Qle 180 wpm; case_Qle wpm 80; case_Qle 220 wpm;
      cbn [negb andb]; try (exfalso; lra).
    all: first
      [ left; split; [vm_compute; reflexivity | lra]
      | right; left; split; [vm_compute; reflexivity | lra]
      | right; right; split; [vm_compute; reflexivity | lra] ].
  - match goal with
    | |- context [Math_min 5 (Math_max 1 (if ?c then 5 else if ?d then 4 else 3))] =>
        destruct (three_four_five c d) as [Heq Hv]
    end.
    cbv zeta in Heq, Hv. rewrite !Heq. exact Hv.
  - match goal with
    | |- context [Math_min 5 (Math_max 1 (if ?c then 5 else if ?d then 4 else 3))] =>
        destruct (three_four_five c d) as [Heq Hv]
    end.
    cbv zeta in Heq, Hv. rewrite !Heq. exact Hv.
Qed.

(** X24. The dialog never rates below 3: each of the three component scores
    is 3, 4 or 5, so the overall score lies between 3 and 5, its
    description is never [Needs Improvement] and its colour never the
    warning red. *)
Theorem calculateScores_never_below_three (session : FeedbackModal.TeachingSession) :
  let scores := FeedbackModal.calculateScores session in
  (FeedbackModal.clarity scores == 3 \/ FeedbackModal.clarity scores == 4
   \/ FeedbackModal.clarity scores == 5)
  /\ (FeedbackModal.delivery scores == 3 \/ FeedbackModal.delivery scores == 4
      \/ FeedbackModal.delivery scores == 5)
  /\ (FeedbackModal.bodyLanguage scores == 3
      \/ FeedbackModal.bodyLanguage scores == 4
      \/ FeedbackModal.bodyLanguage scores == 5)
  /\ 3 <= FeedbackModal.overall scores <= 5
  /\ FeedbackModal.getScoreDescription (FeedbackModal.overall scores)
     <> "Needs Improvement"
  /\ FeedbackModal.getScoreColor (FeedbackModal.overall scores)
     <> "text-destructive".
Proof.
  cbv zeta.
  destruct (calculateScores_fields session)
    as (wpm & _ & Hclarity & Hdelivery & Hbody & Hoverall).
  cbv zeta in Hclarity, Hdelivery, Hbody, Hoverall.
  set (scores := FeedbackModal.calculateScores session) in *.
  assert (Hc : FeedbackModal.clarity scores == 3
               \/ FeedbackModal.clarity scores == 4
               \/ FeedbackModal.clarity scores == 5).
  { destruct Hclarity as [[H _] | [[H _] | [H _]]]; auto. }
  assert (Hrange : 3 <= FeedbackModal.overall scores <= 5).
  { set (x := (FeedbackModal.clarity scores * 0.4
               + FeedbackModal.delivery scores * 0.3
               + FeedbackModal.bodyLanguage scores * 0.3) * 10) in *.
    assert (Hx : inject_Z 30 <= x <= inject_Z 50).
    { change (inject_Z 30) with 30. change (inject_Z 50) with 50. subst x.
      destruct Hc as [H1 | [H1 | H1]], Hdelivery as [H2 | [H2 | H2]],
        Hbody as [H3 | [H3 | H3]]; rewrite H1, H2, H3; split; lra. }
    pose proof (Math_round_ge x 30 (proj1 Hx)) as Hlo.
    pose proof (Math_round_le x 50 (proj2 Hx)) as Hhi.
    change (inject_Z 30) with 30 in Hlo. change (inject_Z 50) with 50 in Hhi.
    rewrite Hoverall. split.
    - apply Qle_shift_div_l; lra.
    - apply Qle_shift_div_r; lra. }
  split; [exact Hc |]. split; [exact Hdelivery |]. split; [exact Hbody |].
  split; [exact Hrange |].
  unfold FeedbackModal.getScoreDescription, FeedbackModal.getScoreColor.
  split; case_geb; try discriminate; exfalso; lra.
Qed.

Lemma ltb_false (a b : Q) : ltb a b = false <-> b <= a.
Proof.
  unfold ltb. case_Qle b a; cbn [negb]; split; intros H;
    first [assumption | reflexivity | discriminate | exfalso; lra].
Qed.

Lemma ltb_true (a b : Q) : ltb a b = true <-> a < b.
Proof.
  unfold ltb. case_Qle b a; cbn [negb]; split; intros H;
    first [assumption | reflexivity | discriminate | exfalso; lra].
Qed.

Lemma gtb_true (a b : Q) : gtb a b = true <-> b < a.
Proof.
  unfold gtb. case_Qle a b; cbn [negb]; split; intros H;
    first [assumption | reflexivity | discriminate | exfalso; lra].
Qed.

(** X25. The dialog gives no tip exactly when the clarity, the delivery and
    the body language are all at least 4. *)
Theorem generateTips_empty_iff (session : FeedbackModal.TeachingSession) :
  let scores := FeedbackModal.calculateScores session in
  FeedbackModal.generateTips session = []
  <-> (4 <= FeedbackModal.clarity scores
       /\ 4 <= FeedbackModal.delivery scores
       /\ 4 <= FeedbackModal.bodyLanguage scores).
Proof.
  cbv zeta. unfold FeedbackModal.generateTips. cbv zeta.
  set (scores := FeedbackModal.calculateScores session).
  rewrite <- !ltb_false.
  destruct (ltb (FeedbackModal.clarity scores) 4);
    destruct (ltb (FeedbackModal.delivery scores) 4);
    destruct (ltb (FeedbackModal.bodyLanguage scores) 4);
    split; try (intros (H1 & H2 & H3); discriminate); try tauto;
    intros H; exfalso; revert H;
    repeat match goal with
           | |- context [match ?x with Some _ => _ | None => _ end] => destruct x
           | |- context [if ?c then _ else _] => destruct c
           end;
    apply push_not_nil.
Qed.

(** X26. When the clarity is below 4 the first tip is always one of the two
    tips on the pace, followed by the tip on pauses: the rounded pace is
    then above 180 or below 100, so the case without a pace tip does not
    occur. *)
Theorem generateTips_pace_tip (session : FeedbackModal.TeachingSession) :
  let scores := FeedbackModal.calculateScores session in
  FeedbackModal.clarity scores < 4 ->
  exists paceTip rest,
    FeedbackModal.generateTips session
    = paceTip :: "Use more pauses and emphasis on key points" :: rest
    /\ ((paceTip = "Try speaking more slowly for better clarity"
         /\ 180 < FeedbackModal.wordsPerMinute scores)
        \/ (paceTip = "Increase your speaking pace to maintain engagement"
            /\ FeedbackModal.wordsPerMinute scores < 100)).
Proof.
  cbv zeta. intros Hlow.
  destruct (calculateScores_fields session)
    as (wpm & Hwpm & Hclarity & _).
  cbv zeta in Hwpm, Hclarity.
  unfold FeedbackModal.generateTips. cbv zeta.
  set (scores := FeedbackModal.calculateScores session) in *.
  assert (Hpace : wpm <= 80 \/ 220 <= wpm).
  { destruct Hclarity as [[H _] | [[H _] | [_ H]]]; [lra | lra | exact H]. }
  apply ltb_true in Hlow. rewrite Hlow. rewrite Hwpm.
  destruct Hpace as [Hslow | Hfast].
  - pose proof (Math_round_le wpm 80 Hslow) as Hround.
    change (inject_Z 80) with 80 in Hround.
    assert (H180 : gtb (Math_round wpm) 180 = false).
    { unfold gtb. case_Qle (Math_round wpm) 180; [reflexivity | exfalso; lra]. }
    assert (H100 : ltb (Math_round wpm) 100 = true) by (apply ltb_true; lra).
    rewrite H180, H100.
    exists "Increase your speaking pace to maintain engagement".
    destruct (ltb (FeedbackModal.delivery scores) 4);
      destruct (ltb (FeedbackModal.bodyLanguage scores) 4);
      try destruct (last (FeedbackModal.emotions session)) as [e |];
      try destruct (String.eqb e "neutral");
      (eexists; split; [reflexivity | right; split; [reflexivity | lra]]).
  - pose proof (Math_round_ge wpm 220 Hfast) as Hround.
    change (inject_Z 220) with 220 in Hround.
    assert (H180 : gtb (Math_round wpm) 180 = true) by (apply gtb_true; lra).
    rewrite H180.
    exists "Try speaking more slowly for better clarity".
    destruct (ltb (FeedbackModal.delivery scores) 4);
      destruct (ltb (FeedbackModal.bodyLanguage scores) 4);
      try destruct (last (FeedbackModal.emotions session)) as [e |];
      try destruct (String.eqb e "neutral");
      (eexists; split; [reflexivity | left; split; [reflexivity | lra]]).
Qed.

Lemma generateTips_empty_iff_witness :
  FeedbackModal.generateTips Samples.lively = [].
Proof.
  apply (proj2 (generateTips_empty_iff Samples.lively)).
  split; [| split]; vm_compute; discriminate.
Defined.

Lemma generateTips_pace_tip_witness :
  FeedbackModal.clarity (FeedbackModal.calculateScores Samples.quiet) < 4
  /\ exists paceTip rest,
       FeedbackModal.generateTips Samples.quiet
       = paceTip :: "Use more pauses and emphasis on key points" :: rest.
Proof.
  assert (H : FeedbackModal.clarity (FeedbackModal.calculateScores Samples.quiet)
              < 4) by (vm_compute; reflexivity).
  split; [exact H |].
  destruct (generateTips_pace_tip Samples.quiet H) as (paceTip & rest & Htips & _).
  exists paceTip, rest. exact Htips.
Defined.

Example generateTips_quiet :
  FeedbackModal.generateTips Samples.quiet
  = ["Increase your speaking pace to maintain engagement";
     "Use more pauses and emphasis on key points";
     "Encourage more student interaction with questions";
     "Vary your tone and volume for emphasis";
     "Try smiling more to appear more approachable 😊";
     "Use more varied facial expressions to show enthusiasm"].
Proof. vm_compute. reflexivity. Qed.
